(** * Attendance backend (backend/server.py): admission gate, reports, roster

    A shallow embedding of the request handlers of [backend/server.py] that
    decide attendance: [create_presensi] (the public check-in), the report
    and CSV export of a session, and the attendee and session writes they
    depend on.  Handlers are functions in a small state-and-exception monad
    over the three MongoDB collections they touch; the administrator token
    check ([Depends(get_current_admin)]) is taken as already passed. *)

From Stdlib Require Import String Ascii List ZArith Lia Bool Arith.
From Stdlib Require Import DecimalString.
Import ListNotations.
Local Open Scope string_scope.

(** ** Documents (the pydantic models, as stored by [.dict()]) *)

(** [class Jamaah]: [hp: Optional[str] = None].  Every write goes through
    [Jamaah(...).dict()] or [JamaahCreate.dict()], so the key [hp] is always
    present in a stored document, holding [None] or a string. *)
Record Jamaah := mkJamaah {
  j_id : string;
  j_nama : string;
  j_hp : option string
}.

Record JamaahCreate := mkJamaahCreate {
  jc_nama : string;
  jc_hp : option string
}.

(** [class Kajian]: date and times are plain strings. *)
Record Kajian := mkKajian {
  k_id : string;
  k_judul : string;
  k_tanggal : string;
  k_jam_mulai : string;
  k_jam_selesai : string
}.

Record KajianCreate := mkKajianCreate {
  kc_judul : string;
  kc_tanggal : string;
  kc_jam_mulai : string;
  kc_jam_selesai : string
}.

Record Presensi := mkPresensi {
  p_id : string;
  p_id_jamaah : string;
  p_id_kajian : string;
  p_waktu_presensi : string
}.

Record PresensiCreate := mkPresensiCreate {
  pc_id_jamaah : string;
  pc_id_kajian : string
}.

(** The [data] dict of a successful [PresensiResponse]:
    [{"jamaah": ..., "kajian": ...}]. *)
Record PresensiData := mkPresensiData {
  data_jamaah : string;
  data_kajian : string
}.

Record PresensiResponse := mkPresensiResponse {
  success : bool;
  message : string;
  data : option PresensiData
}.

(** ** The clock and the id generator *)

Record date := mkDate { year : Z; month : Z; day : Z }.

Definition date_eqb (a b : date) : bool :=
  (year a =? year b)%Z && (month a =? month b)%Z && (day a =? day b)%Z.

(** What one request draws from its surroundings: the value of
    [str(uuid.uuid4())], the local [datetime.now()] (date and hour are the
    parts the code reads) and [datetime.now(timezone.utc).isoformat()]. *)
Record Env := mkEnv {
  uuid4 : string;
  now_date : date;
  now_hour : Z;
  utcnow_isoformat : string
}.

(** ** The store: three collections in natural (insertion) order *)

Record DB := mkDB {
  db_jamaah : list Jamaah;
  db_kajian : list Kajian;
  db_presensi : list Presensi
}.

(** [collection.find_one(filter)]: the first matching document. *)
Definition find_one {A} (flt : A -> bool) (c : list A) : option A :=
  List.find flt c.

(** [collection.find(filter).to_list(n)]: at most [n] matching documents. *)
Definition find_to_list {A} (flt : A -> bool) (n : nat) (c : list A) : list A :=
  firstn n (filter flt c).

(** [collection.insert_one(doc)]. *)
Definition insert_one {A} (doc : A) (c : list A) : list A := c ++ [doc].

(** [collection.update_one(filter, {"$set": ...})]: the first match only. *)
Fixpoint update_one {A} (flt : A -> bool) (set : A -> A) (c : list A) : list A :=
  match c with
  | [] => []
  | x :: r => if flt x then set x :: r else x :: update_one flt set r
  end.

(** [collection.delete_one(filter)]: the first match only; returns
    [deleted_count] with the new collection. *)
Fixpoint delete_one {A} (flt : A -> bool) (c : list A) : nat * list A :=
  match c with
  | [] => (0, [])
  | x :: r =>
      if flt x then (1, r)
      else let '(n, r') := delete_one flt r in (n, x :: r')
  end.

(** ** Exceptions and the handler monad *)

Inductive exn :=
| HTTPException (status_code : Z) (detail : string)
| ValueError
| TypeError.

Inductive Res (A : Type) :=
| Ret (a : A) (s : DB)
| Exc (e : exn) (s : DB).
Arguments Ret {A} a s.
Arguments Exc {A} e s.

Definition M (A : Type) := DB -> Res A.

Definition ret {A} (a : A) : M A := fun s => Ret a s.
Definition raise {A} (e : exn) : M A := fun s => Exc e s.
Definition bind {A B} (m : M A) (k : A -> M B) : M B :=
  fun s => match m s with
           | Ret a s' => k a s'
           | Exc e s' => Exc e s'
           end.
Definition gets {A} (f : DB -> A) : M A := fun s => Ret (f s) s.
Definition modify (f : DB -> DB) : M unit := fun s => Ret tt (f s).

Declare Scope handler_scope.
Delimit Scope handler_scope with handler.
Notation "x <- c ;; k" := (bind c (fun x => k))
  (at level 61, c at next level, right associativity) : handler_scope.
Notation "c ;; k" := (bind c (fun _ => k))
  (at level 61, right associativity) : handler_scope.
Local Open Scope handler_scope.

Definition store_of {A} (r : Res A) : DB :=
  match r with Ret _ s => s | Exc _ s => s end.

(** The filters the handlers pass to the driver. *)
Definition by_j_id (i : string) (j : Jamaah) : bool := String.eqb (j_id j) i.
Definition by_k_id (i : string) (k : Kajian) : bool := String.eqb (k_id k) i.
Definition by_hp (h : string) (j : Jamaah) : bool :=
  match j_hp j with Some h' => String.eqb h' h | None => false end.
Definition by_pair (ij ik : string) (p : Presensi) : bool :=
  String.eqb (p_id_jamaah p) ij && String.eqb (p_id_kajian p) ik.
Definition by_p_kajian (ik : string) (p : Presensi) : bool :=
  String.eqb (p_id_kajian p) ik.

Definition insert_presensi (p : Presensi) : M unit :=
  modify (fun s => mkDB (db_jamaah s) (db_kajian s) (insert_one p (db_presensi s))).
Definition insert_jamaah (j : Jamaah) : M unit :=
  modify (fun s => mkDB (insert_one j (db_jamaah s)) (db_kajian s) (db_presensi s)).
Definition insert_kajian (k : Kajian) : M unit :=
  modify (fun s => mkDB (db_jamaah s) (insert_one k (db_kajian s)) (db_presensi s)).

(** ** The admission gate: [create_presensi] *)

Definition msg_kajian_tidak_ditemukan : string := "Kajian tidak ditemukan".
Definition msg_jamaah_tidak_ditemukan : string := "Jamaah tidak ditemukan".
Definition msg_sudah_presensi : string := "⚠️ Anda sudah presensi untuk kajian ini.".
Definition msg_waktu_berakhir : string := "⏰ Waktu presensi sudah berakhir.".
Definition msg_berhasil : string := "✅ Presensi berhasil, semoga bermanfaat ilmunya.".

Section Gate.

(** [datetime.fromisoformat(s).date()], [None] when it raises [ValueError].
    The accepted grammar belongs to the interpreter and grew between
    releases, so the handlers take it as given. *)
Variable fromisoformat_date : string -> option date.

Definition parse_tanggal (s : string) : M date :=
  match fromisoformat_date s with
  | Some d => ret d
  | None => raise ValueError
  end.

Definition create_presensi (env : Env) (presensi_create : PresensiCreate)
  : M PresensiResponse :=
  kajian <- gets (fun s => find_one (by_k_id (pc_id_kajian presensi_create)) (db_kajian s)) ;;
  match kajian with
  | None => ret (mkPresensiResponse false msg_kajian_tidak_ditemukan None)
  | Some kajian =>
  jamaah <- gets (fun s => find_one (by_j_id (pc_id_jamaah presensi_create)) (db_jamaah s)) ;;
  match jamaah with
  | None => ret (mkPresensiResponse false msg_jamaah_tidak_ditemukan None)
  | Some jamaah =>
  existing <- gets (fun s => find_one (by_pair (pc_id_jamaah presensi_create)
                                               (pc_id_kajian presensi_create))
                                      (db_presensi s)) ;;
  match existing with
  | Some _ => ret (mkPresensiResponse false msg_sudah_presensi None)
  | None =>
  kajian_date <- parse_tanggal (k_tanggal kajian) ;;
  let current_date := now_date env in
  if negb (date_eqb kajian_date current_date)
  then ret (mkPresensiResponse false msg_waktu_berakhir None)
  else
  let current_hour := now_hour env in
  if negb ((6 <=? current_hour)%Z && (current_hour <=? 23)%Z)
  then ret (mkPresensiResponse false msg_waktu_berakhir None)
  else
  let presensi := mkPresensi (uuid4 env) (pc_id_jamaah presensi_create)
                             (pc_id_kajian presensi_create) (utcnow_isoformat env) in
  insert_presensi presensi ;;
  ret (mkPresensiResponse true msg_berhasil
         (Some (mkPresensiData (j_nama jamaah) (k_judul kajian))))
  end end end.

End Gate.

(** ** The gate's checks, as an ordered list

    The claim about the gate speaks of checks evaluated in a fixed order
    with the first failing one deciding the answer.  [gate_in_order] is that
    reading, for any order: it is compared with [create_presensi] below. *)

Inductive Rejection := SessionNotFound | AttendeeNotFound | AlreadyRecorded | WindowClosed.

Definition rejection_message (r : Rejection) : string :=
  match r with
  | SessionNotFound => msg_kajian_tidak_ditemukan
  | AttendeeNotFound => msg_jamaah_tidak_ditemukan
  | AlreadyRecorded => msg_sudah_presensi
  | WindowClosed => msg_waktu_berakhir
  end.

Definition reject (r : Rejection) : PresensiResponse :=
  mkPresensiResponse false (rejection_message r) None.

Definition confirm (j : Jamaah) (k : Kajian) : PresensiResponse :=
  mkPresensiResponse true msg_berhasil (Some (mkPresensiData (j_nama j) (k_judul k))).

Definition in_band (h : Z) : bool := (6 <=? h)%Z && (h <=? 23)%Z.

Definition new_presensi (env : Env) (pc : PresensiCreate) : Presensi :=
  mkPresensi (uuid4 env) (pc_id_jamaah pc) (pc_id_kajian pc) (utcnow_isoformat env).

Definition with_presensi (p : Presensi) (s : DB) : DB :=
  mkDB (db_jamaah s) (db_kajian s) (db_presensi s ++ [p]).

Definition lookup_kajian (i : string) (s : DB) : option Kajian :=
  find_one (by_k_id i) (db_kajian s).
Definition lookup_jamaah (i : string) (s : DB) : option Jamaah :=
  find_one (by_j_id i) (db_jamaah s).
Definition lookup_presensi (ij ik : string) (s : DB) : option Presensi :=
  find_one (by_pair ij ik) (db_presensi s).

Inductive Check :=
| SessionExists | AttendeeExists | NoDuplicate | DateParses | DateIsToday | HourInBand.

(** What a failing check answers: a rejection payload, or an exception. *)
Definition on_failure (c : Check) : M PresensiResponse :=
  match c with
  | SessionExists => ret (reject SessionNotFound)
  | AttendeeExists => ret (reject AttendeeNotFound)
  | NoDuplicate => ret (reject AlreadyRecorded)
  | DateParses => raise ValueError
  | DateIsToday => ret (reject WindowClosed)
  | HourInBand => ret (reject WindowClosed)
  end.

Section Checks.

Variable fromisoformat_date : string -> option date.

Definition session_date (pc : PresensiCreate) (s : DB) : option date :=
  match lookup_kajian (pc_id_kajian pc) s with
  | Some k => fromisoformat_date (k_tanggal k)
  | None => None
  end.

Definition passes (env : Env) (pc : PresensiCreate) (s : DB) (c : Check) : bool :=
  match c with
  | SessionExists =>
      match lookup_kajian (pc_id_kajian pc) s with Some _ => true | None => false end
  | AttendeeExists =>
      match lookup_jamaah (pc_id_jamaah pc) s with Some _ => true | None => false end
  | NoDuplicate =>
      match lookup_presensi (pc_id_jamaah pc) (pc_id_kajian pc) s with
      | Some _ => false | None => true end
  | DateParses =>
      match session_date pc s with Some _ => true | None => false end
  | DateIsToday =>
      match session_date pc s with
      | Some d => date_eqb d (now_date env) | None => false end
  | HourInBand => in_band (now_hour env)
  end.

Definition gate_in_order (order : list Check) (env : Env) (pc : PresensiCreate)
  : M PresensiResponse :=
  fun s =>
    match List.find (fun c => negb (passes env pc s c)) order with
    | Some c => on_failure c s
    | None =>
        match lookup_kajian (pc_id_kajian pc) s, lookup_jamaah (pc_id_jamaah pc) s with
        | Some k, Some j => Ret (confirm j k) (with_presensi (new_presensi env pc) s)
        | None, _ => on_failure SessionExists s
        | _, None => on_failure AttendeeExists s
        end
    end.

End Checks.

(** The five checks the claim lists, in its order. *)
Definition order_as_claimed : list Check :=
  [SessionExists; AttendeeExists; NoDuplicate; DateIsToday; HourInBand].

(** The same with the parse of the stored date, which the code performs
    before it compares dates. *)
Definition order_in_code : list Check :=
  [SessionExists; AttendeeExists; NoDuplicate; DateParses; DateIsToday; HourInBand].

(** ** A calendar-date reading of [datetime.fromisoformat]

    [YYYY-MM-DD] with a real day of the proleptic Gregorian calendar: the
    form [date.isoformat()] produces and every release of the interpreter
    accepts.  It stands for the parser in the closed examples, which use
    only strings of that form and strings holding no digit at all. *)

Definition digit (c : ascii) : option Z :=
  let n := Z.of_nat (nat_of_ascii c) in
  if (48 <=? n)%Z && (n <=? 57)%Z then Some (n - 48)%Z else None.

Fixpoint digits (cs : list ascii) (acc : Z) : option Z :=
  match cs with
  | [] => Some acc
  | c :: r => match digit c with
              | Some d => digits r (10 * acc + d)%Z
              | None => None
              end
  end.

Definition is_leap (y : Z) : bool :=
  ((y mod 4 =? 0) && (negb (y mod 100 =? 0) || (y mod 400 =? 0)))%Z.

Definition days_in_month (y m : Z) : Z :=
  if (m =? 2)%Z then (if is_leap y then 29 else 28)%Z
  else if ((m =? 4) || (m =? 6) || (m =? 9) || (m =? 11))%Z then 30%Z
  else 31%Z.

Definition valid_date (y m d : Z) : bool :=
  ((1 <=? y) && (y <=? 9999) && (1 <=? m) && (m <=? 12)
   && (1 <=? d) && (d <=? days_in_month y m))%Z.

Definition iso_calendar_date (s : string) : option date :=
  match list_ascii_of_string s with
  | [y1; y2; y3; y4; s1; m1; m2; s2; d1; d2] =>
      if (Ascii.eqb s1 "-" && Ascii.eqb s2 "-")%bool then
        match digits [y1; y2; y3; y4] 0, digits [m1; m2] 0, digits [d1; d2] 0 with
        | Some y, Some m, Some d =>
            if valid_date y m d then Some (mkDate y m d) else None
        | _, _, _ => None
        end
      else None
  | _ => None
  end.

(** ** Attendee and session writes *)

(** [create_jamaah]: the phone check runs only for a truthy [hp]
    (neither [None] nor the empty string). *)
Definition create_jamaah (env : Env) (jamaah_create : JamaahCreate) : M Jamaah :=
  (match jc_hp jamaah_create with
   | Some hp =>
       if negb (String.eqb hp "") then
         existing <- gets (fun s => find_one (by_hp hp) (db_jamaah s)) ;;
         match existing with
         | Some _ => raise (HTTPException 400 "Phone number already exists")
         | None => ret tt
         end
       else ret tt
   | None => ret tt
   end) ;;
  let jamaah := mkJamaah (uuid4 env) (jc_nama jamaah_create) (jc_hp jamaah_create) in
  insert_jamaah jamaah ;;
  ret jamaah.

Definition set_jamaah (jamaah_update : JamaahCreate) (j : Jamaah) : Jamaah :=
  mkJamaah (j_id j) (jc_nama jamaah_update) (jc_hp jamaah_update).

(** [update_jamaah]: [Jamaah( **None)] would raise [TypeError]; the document
    is there after the update, so that branch is not taken. *)
Definition update_jamaah (jamaah_id : string) (jamaah_update : JamaahCreate) : M Jamaah :=
  jamaah <- gets (fun s => find_one (by_j_id jamaah_id) (db_jamaah s)) ;;
  match jamaah with
  | None => raise (HTTPException 404 "Jamaah not found")
  | Some _ =>
      modify (fun s => mkDB (update_one (by_j_id jamaah_id) (set_jamaah jamaah_update)
                                        (db_jamaah s))
                            (db_kajian s) (db_presensi s)) ;;
      updated_jamaah <- gets (fun s => find_one (by_j_id jamaah_id) (db_jamaah s)) ;;
      match updated_jamaah with
      | Some j => ret j
      | None => raise TypeError
      end
  end.

Definition delete_jamaah (jamaah_id : string) : M string :=
  fun s =>
    let '(deleted_count, c) := delete_one (by_j_id jamaah_id) (db_jamaah s) in
    if Nat.eqb deleted_count 0
    then Exc (HTTPException 404 "Jamaah not found") (mkDB c (db_kajian s) (db_presensi s))
    else Ret "Jamaah deleted successfully" (mkDB c (db_kajian s) (db_presensi s)).

(** [create_kajian]: the request's fields are stored as they come. *)
Definition create_kajian (env : Env) (kajian_create : KajianCreate) : M Kajian :=
  let kajian := mkKajian (uuid4 env) (kc_judul kajian_create) (kc_tanggal kajian_create)
                         (kc_jam_mulai kajian_create) (kc_jam_selesai kajian_create) in
  insert_kajian kajian ;;
  ret kajian.

(** ** Reporting: [get_attendance_report] *)

Record ReportRow := mkReportRow {
  r_nama : string;
  r_hp : option string;
  r_waktu_presensi : string
}.

(** [bson.ObjectId]: the value under the key [_id] that the driver adds to
    every document it inserts and gives back with every document it finds.
    No handler reads it. *)
Inductive ObjectId := an_ObjectId.

(** A session document as [find_one] returns it: its [_id] and the stored
    fields.  The other reads wrap the document in a pydantic model, which
    drops [_id]; the report passes the document on as found. *)
Record RawKajian := mkRawKajian {
  raw__id : ObjectId;
  raw_kajian : Kajian
}.

Definition as_found (k : Kajian) : RawKajian := mkRawKajian an_ObjectId k.

Record Report := mkReport {
  rep_kajian : RawKajian;
  total_hadir : nat;
  detail_kehadiran : list ReportRow
}.

(** [jamaah.get("hp", "")]: the key is always stored, so the default is
    never taken and a stored [None] comes back as [None]. *)
Definition report_row (j : Jamaah) (p : Presensi) : ReportRow :=
  mkReportRow (j_nama j) (j_hp j) (p_waktu_presensi p).

(** The [for presensi in presensi_list] loop, [report_data] being the list
    it appends to. *)
Fixpoint report_loop (presensi_list : list Presensi) (report_data : list ReportRow)
  : M (list ReportRow) :=
  match presensi_list with
  | [] => ret report_data
  | presensi :: rest =>
      jamaah <- gets (fun s => find_one (by_j_id (p_id_jamaah presensi)) (db_jamaah s)) ;;
      match jamaah with
      | Some jamaah => report_loop rest (report_data ++ [report_row jamaah presensi])
      | None => report_loop rest report_data
      end
  end.

Definition get_attendance_report (kajian_id : string) : M Report :=
  kajian <- gets (fun s => find_one (by_k_id kajian_id) (db_kajian s)) ;;
  match kajian with
  | None => raise (HTTPException 404 "Kajian not found")
  | Some kajian =>
      presensi_list <- gets (fun s => find_to_list (by_p_kajian kajian_id) 1000 (db_presensi s)) ;;
      report_data <- report_loop presensi_list [] ;;
      ret (mkReport (as_found kajian) (List.length report_data) report_data)
  end.

(** ** The response of the report route

    The handler's return value goes through FastAPI's [jsonable_encoder],
    which raises [ValueError] on a value it has no encoding for, a
    [bson.ObjectId] among them. *)

#[warnings="-register-all"] Inductive pyval :=
| VStr (s : string)
| VInt (n : nat)
| VNone
| VObjectId (o : ObjectId)
| VList (l : list pyval)
| VDict (l : list (string * pyval)).

Fixpoint encodable (v : pyval) : bool :=
  match v with
  | VStr _ | VInt _ | VNone => true
  | VObjectId _ => false
  | VList l => forallb encodable l
  | VDict l => forallb (fun kv => encodable (snd kv)) l
  end.

Definition jsonable_encoder (v : pyval) : M pyval :=
  if encodable v then ret v else raise ValueError.

Definition kajian_fields (k : Kajian) : list (string * pyval) :=
  [("id", VStr (k_id k)); ("judul", VStr (k_judul k)); ("tanggal", VStr (k_tanggal k));
   ("jam_mulai", VStr (k_jam_mulai k)); ("jam_selesai", VStr (k_jam_selesai k))].

(** A [Kajian] model, as the other session reads return it. *)
Definition kajian_value (k : Kajian) : pyval := VDict (kajian_fields k).

Definition raw_kajian_value (r : RawKajian) : pyval :=
  VDict (("_id", VObjectId (raw__id r)) :: kajian_fields (raw_kajian r)).

Definition row_value (r : ReportRow) : pyval :=
  VDict [("nama", VStr (r_nama r));
         ("hp", match r_hp r with Some h => VStr h | None => VNone end);
         ("waktu_presensi", VStr (r_waktu_presensi r))].

(** The dict the handler returns. *)
Definition report_value (rep : Report) : pyval :=
  VDict [("kajian", raw_kajian_value (rep_kajian rep));
         ("total_hadir", VInt (total_hadir rep));
         ("detail_kehadiran", VList (map row_value (detail_kehadiran rep)))].

(** The route [GET /laporan/{kajian_id}]: the handler, then the encoding of
    what it returned. *)
Definition get_attendance_report_route (kajian_id : string) : M pyval :=
  report <- get_attendance_report kajian_id ;;
  jsonable_encoder (report_value report).

(** ** CSV export: [export_attendance_csv] *)

(** The values the handler puts in a row, and [str(cell)]. *)
Inductive cell :=
| CInt (i : nat)
| CStr (s : string)
| CNone.

Definition py_str (c : cell) : string :=
  match c with
  | CInt i => NilEmpty.string_of_uint (Nat.to_uint i)
  | CStr s => s
  | CNone => "None"
  end.

Definition cell_of_hp (o : option string) : cell :=
  match o with Some s => CStr s | None => CNone end.

Definition dquote : string := String (ascii_of_nat 34) EmptyString.
Definition newline : string := String (ascii_of_nat 10) EmptyString.

(** The encoded byte-order mark U+FEFF: the bytes EF BB BF. *)
Definition utf8_bom : string :=
  String (ascii_of_nat 239) (String (ascii_of_nat 187) (String (ascii_of_nat 191) EmptyString)).

Definition csv_header : list cell :=
  [CStr "No"; CStr "Nama Jamaah"; CStr "No HP"; CStr "Waktu Presensi"].

(** The [for i, presensi in enumerate(presensi_list, 1)] loop: [i] advances
    with every record, appended or not. *)
Fixpoint csv_loop (i : nat) (presensi_list : list Presensi) (csv_data : list (list cell))
  : M (list (list cell)) :=
  match presensi_list with
  | [] => ret csv_data
  | presensi :: rest =>
      jamaah <- gets (fun s => find_one (by_j_id (p_id_jamaah presensi)) (db_jamaah s)) ;;
      match jamaah with
      | Some jamaah =>
          csv_loop (S i) rest
            (csv_data ++ [[CInt i; CStr (j_nama jamaah); cell_of_hp (j_hp jamaah);
                           CStr (p_waktu_presensi presensi)]])
      | None => csv_loop (S i) rest csv_data
      end
  end.

(** [','.join([f'"{str(cell)}"' for cell in row])] *)
Definition csv_line (row : list cell) : string :=
  String.concat "," (map (fun c => dquote ++ py_str c ++ dquote) row).

(** ['\n'.join(csv_content)] *)
Definition csv_string_of (csv_data : list (list cell)) : string :=
  String.concat newline (map csv_line csv_data).

Record StreamingResponse := mkStreamingResponse {
  body : string;
  media_type : string;
  content_disposition : string
}.

(** The two kinds of object the handler builds: a [BytesIO] buffer, which has
    a [write] method, and a [str], which has none. *)
Inductive pyobj :=
| PyBytesIO (buffer : string)
| PyStr (s : string).

Definition has_write (o : pyobj) : bool :=
  match o with PyBytesIO _ => true | PyStr _ => false end.

(** [csv.writer(fileobj, delimiter=',')]: [TypeError] unless [fileobj] has a
    [write] method. *)
Definition csv_writer (fileobj : pyobj) : M unit :=
  if has_write fileobj then ret tt else raise TypeError.

(** From [csv_data = []] to the [return] of the handler. *)
Definition export_build_response (kajian : Kajian) (presensi_list : list Presensi)
  : M StreamingResponse :=
  let csv_data := ([] ++ [csv_header])%list in
  csv_data <- csv_loop 1 presensi_list csv_data ;;
  let csv_string := csv_string_of csv_data in
  ret (mkStreamingResponse csv_string "text/csv"
         ("attachment; filename=presensi_" ++ k_judul kajian ++ "_" ++ k_tanggal kajian
          ++ ".csv")).

(** The handler: [output] receives the byte-order mark, [csv.writer] is given
    the decoded text of [output], and the response is built from
    [csv_string] alone. *)
Definition export_attendance_csv (kajian_id : string) : M StreamingResponse :=
  kajian <- gets (fun s => find_one (by_k_id kajian_id) (db_kajian s)) ;;
  match kajian with
  | None => raise (HTTPException 404 "Kajian not found")
  | Some kajian =>
      presensi_list <- gets (fun s => find_to_list (by_p_kajian kajian_id) 1000 (db_presensi s)) ;;
      let output := EmptyString ++ utf8_bom in
      csv_writer (PyStr output) ;;
      export_build_response kajian presensi_list
  end.

(** The data rows of a CSV text: its lines after the header line. *)
Definition csv_rows_of (csv_data : list (list cell)) : list (list cell) := tl csv_data.

(** The leading [No] cell of each data row. *)
Definition row_index (row : list cell) : option nat :=
  match row with CInt i :: _ => Some i | _ => None end.

(** ** Readings of a handler's result *)

Definition value_of {A} (r : Res A) : option A :=
  match r with Ret a _ => Some a | Exc _ _ => None end.


(** Records of a pair, records of a session, and those whose attendee is
    still in the roster. *)
Definition count_pair (ij ik : string) (s : DB) : nat :=
  List.length (filter (by_pair ij ik) (db_presensi s)).

Definition records_of (ik : string) (s : DB) : list Presensi :=
  filter (by_p_kajian ik) (db_presensi s).

Definition attendee_exists (s : DB) (p : Presensi) : bool :=
  match lookup_jamaah (p_id_jamaah p) s with Some _ => true | None => false end.

Definition live_records (ik : string) (s : DB) : list Presensi :=
  filter (attendee_exists s) (records_of ik s).

(** One report row per record whose attendee is found, in the order given. *)
Definition detail_rows (s : DB) (l : list Presensi) : list ReportRow :=
  flat_map (fun p => match lookup_jamaah (p_id_jamaah p) s with
                     | Some j => [report_row j p]
                     | None => []
                     end) l.

(** A record and the report row made from it. *)
Definition row_of_record (s : DB) (p : Presensi) (r : ReportRow) : Prop :=
  exists j, lookup_jamaah (p_id_jamaah p) s = Some j
            /\ r = mkReportRow (j_nama j) (j_hp j) (p_waktu_presensi p).

(** The CSV data rows the loop appends, [i] being the index of the first
    record of [l]. *)
Fixpoint csv_rows (s : DB) (i : nat) (l : list Presensi) : list (list cell) :=
  match l with
  | [] => []
  | p :: r =>
      match lookup_jamaah (p_id_jamaah p) s with
      | Some j => [CInt i; CStr (j_nama j); cell_of_hp (j_hp j); CStr (p_waktu_presensi p)]
                  :: csv_rows s (S i) r
      | None => csv_rows s (S i) r
      end
  end.


(** Phones that count as present: neither [None] nor empty, as the guard of
    [create_jamaah] reads them. *)
Definition present_phones (c : list Jamaah) : list string :=
  flat_map (fun j => match j_hp j with
                     | Some h => if String.eqb h "" then [] else [h]
                     | None => []
                     end) c.

Definition phone_unique (s : DB) : Prop := NoDup (present_phones (db_jamaah s)).

(** ** Example stores *)

Definition budi : Jamaah := mkJamaah "j-1" "Budi" (Some "0812000111").
Definition siti : Jamaah := mkJamaah "j-2" "Siti" (Some "0813000222").
Definition kajian_subuh : Kajian :=
  mkKajian "k-1" "Kajian Subuh" "2024-05-17" "05:00" "06:00".
Definition kajian_kemarin : Kajian :=
  mkKajian "k-2" "Kajian Kemarin" "2024-05-16" "19:00" "21:00".
Definition kajian_besok : Kajian :=
  mkKajian "k-3" "Kajian Besok" "besok" "19:00" "21:00".

Definition hari_ini : date := mkDate 2024 5 17.

Definition env_pagi : Env := mkEnv "p-1" hari_ini 9 "2024-05-17T02:00:00+00:00".

Definition db_awal : DB :=
  mkDB [budi; siti] [kajian_subuh; kajian_kemarin; kajian_besok] [].

(** Three records of one session; the attendee of the second one ([j-9])
    is no longer in the roster. *)
Definition db_laporan : DB :=
  mkDB [budi; siti] [kajian_subuh]
       [mkPresensi "p-1" "j-1" "k-1" "2024-05-17T02:00:00+00:00";
        mkPresensi "p-2" "j-9" "k-1" "2024-05-17T02:05:00+00:00";
        mkPresensi "p-3" "j-2" "k-1" "2024-05-17T02:10:00+00:00"].

(** A session with 1001 attendees, each checked in once. *)
Definition nomor (n : nat) : string := NilEmpty.string_of_uint (Nat.to_uint n).

Definition db_ramai : DB :=
  mkDB (map (fun n => mkJamaah ("j-" ++ nomor n) ("Jamaah " ++ nomor n) None) (seq 1 1001))
       [kajian_subuh]
       (map (fun n => mkPresensi ("p-" ++ nomor n) ("j-" ++ nomor n) "k-1"
                                 "2024-05-17T02:00:00+00:00") (seq 1 1001)).

(** ** The remaining session handlers *)

Definition set_kajian (kajian_update : KajianCreate) (k : Kajian) : Kajian :=
  mkKajian (k_id k) (kc_judul kajian_update) (kc_tanggal kajian_update)
           (kc_jam_mulai kajian_update) (kc_jam_selesai kajian_update).

(** [update_kajian], of the same shape as [update_jamaah]. *)
Definition update_kajian (kajian_id : string) (kajian_update : KajianCreate) : M Kajian :=
  kajian <- gets (fun s => find_one (by_k_id kajian_id) (db_kajian s)) ;;
  match kajian with
  | None => raise (HTTPException 404 "Kajian not found")
  | Some _ =>
      modify (fun s => mkDB (db_jamaah s)
                            (update_one (by_k_id kajian_id) (set_kajian kajian_update)
                                        (db_kajian s))
                            (db_presensi s)) ;;
      updated_kajian <- gets (fun s => find_one (by_k_id kajian_id) (db_kajian s)) ;;
      match updated_kajian with
      | Some k => ret k
      | None => raise TypeError
      end
  end.

Definition delete_kajian (kajian_id : string) : M string :=
  fun s =>
    let '(deleted_count, c) := delete_one (by_k_id kajian_id) (db_kajian s) in
    if Nat.eqb deleted_count 0
    then Exc (HTTPException 404 "Kajian not found") (mkDB (db_jamaah s) c (db_presensi s))
    else Ret "Kajian deleted successfully" (mkDB (db_jamaah s) c (db_presensi s)).

(** [get_kajian_public]: the unauthenticated read of one session. *)
Definition get_kajian_public (kajian_id : string) : M Kajian :=
  kajian <- gets (fun s => find_one (by_k_id kajian_id) (db_kajian s)) ;;
  match kajian with
  | None => raise (HTTPException 404 "Kajian not found")
  | Some kajian => ret kajian
  end.

(** [get_jamaah] and [get_kajian]: [find().to_list(1000)]. *)
Definition get_jamaah : M (list Jamaah) :=
  gets (fun s => find_to_list (fun _ => true) 1000 (db_jamaah s)).

Definition get_kajian : M (list Kajian) :=
  gets (fun s => find_to_list (fun _ => true) 1000 (db_kajian s)).

(** ** The QR code: [generate_qr_code]

    [frontend_url] is [os.environ.get('FRONTEND_URL')] before its default,
    [render_png] the [qrcode] rendering of a text into PNG bytes. *)

Record ImageResponse := mkImageResponse {
  img_body : string;
  img_media_type : string
}.

Definition qr_data (frontend_url : option string) (kajian_id : string) : string :=
  match frontend_url with Some u => u | None => "http://localhost:3000" end
  ++ "/presensi/" ++ kajian_id.

Definition generate_qr_code (frontend_url : option string) (render_png : string -> string)
    (kajian_id : string) : M ImageResponse :=
  kajian <- gets (fun s => find_one (by_k_id kajian_id) (db_kajian s)) ;;
  match kajian with
  | None => raise (HTTPException 404 "Kajian not found")
  | Some _ => ret (mkImageResponse (render_png (qr_data frontend_url kajian_id)) "image/png")
  end.

(** ** Administrators

    The [admin] collection is a store of its own; its handlers pass it
    along explicitly and return the answer (a value or an exception)
    with the collection they leave. *)

Record Admin := mkAdmin {
  a_id : string;
  a_username : string;
  a_password_hash : string
}.

Record AdminCreate := mkAdminCreate {
  ac_username : string;
  ac_password : string
}.

Record AdminLogin := mkAdminLogin {
  al_username : string;
  al_password : string
}.

Record AdminResponse := mkAdminResponse {
  ar_id : string;
  ar_username : string
}.

Record LoginResponse := mkLoginResponse {
  access_token : string;
  token_type : string;
  login_admin : AdminResponse
}.

Definition admin_response (a : Admin) : AdminResponse :=
  mkAdminResponse (a_id a) (a_username a).

Definition by_username (u : string) (a : Admin) : bool := String.eqb (a_username a) u.
Definition by_a_id (i : string) (a : Admin) : bool := String.eqb (a_id a) i.

Definition default_admins : list (string * string) :=
  [("adminrh", "cintaquran"); ("pesmarh", "rhmantab")].

Definition usernames (c : list Admin) : list string := map a_username c.

Section Admins.

(** [bcrypt.hashpw(password, salt)] and [bcrypt.checkpw(password, hashed)];
    [jwt.encode] of the claim [{"username": u}] and [jwt.decode], which
    raises [InvalidTokenError] ([None]) or gives the payload's [username]
    entry, if it has one. *)
Variable hashpw : string -> string -> string.
Variable checkpw : string -> string -> bool.
Variable jwt_encode : string -> string.
Variable jwt_decode : string -> option (option string).

(** [salt] is the value of [bcrypt.gensalt()]. *)
Definition hash_password (salt password : string) : string := hashpw password salt.

Definition verify_password (password hashed : string) : bool := checkpw password hashed.

Definition create_access_token (username : string) : string := jwt_encode username.

Definition verify_token (credentials : string) : exn + option string :=
  match jwt_decode credentials with
  | Some payload => inr payload
  | None => inl (HTTPException 401 "Invalid token")
  end.

(** A payload with no [username] entry looks up [None], which no stored
    administrator has. *)
Definition get_current_admin (token_data : option string) (c : list Admin)
  : exn + AdminResponse :=
  match match token_data with
        | Some u => find_one (by_username u) c
        | None => None
        end with
  | None => inl (HTTPException 401 "Admin not found")
  | Some admin => inr (admin_response admin)
  end.

(** The dependency chain of the administrator routes:
    [get_current_admin(token_data = Depends(verify_token))]. *)
Definition authenticate (credentials : string) (c : list Admin) : exn + AdminResponse :=
  match verify_token credentials with
  | inl e => inl e
  | inr token_data => get_current_admin token_data c
  end.

(** The [for admin_data in default_admins] loop of [init_database];
    [draw i] is the id and the salt drawn at its [i]-th turn. *)
Fixpoint seed_loop (draw : nat -> string * string) (i : nat)
    (defaults : list (string * string)) (c : list Admin) : list Admin :=
  match defaults with
  | [] => c
  | (username, password) :: rest =>
      let '(id, salt) := draw i in
      seed_loop draw (S i) rest
                (insert_one (mkAdmin id username (hash_password salt password)) c)
  end.

Definition init_database (draw : nat -> string * string) (c : list Admin) : list Admin :=
  match find_one (fun _ => true) c with
  | Some _ => c
  | None => seed_loop draw 0 default_admins c
  end.

Definition login (admin_login : AdminLogin) (c : list Admin) : exn + LoginResponse :=
  match find_one (by_username (al_username admin_login)) c with
  | None => inl (HTTPException 401 "Invalid credentials")
  | Some admin =>
      if negb (verify_password (al_password admin_login) (a_password_hash admin))
      then inl (HTTPException 401 "Invalid credentials")
      else inr (mkLoginResponse (create_access_token (a_username admin)) "bearer"
                                (admin_response admin))
  end.

Definition get_admins (c : list Admin) : list AdminResponse :=
  map admin_response (find_to_list (fun _ => true) 1000 c).

Definition create_admin (id salt : string) (admin_create : AdminCreate) (c : list Admin)
  : (exn + AdminResponse) * list Admin :=
  match find_one (by_username (ac_username admin_create)) c with
  | Some _ => (inl (HTTPException 400 "Username already exists"), c)
  | None =>
      let admin := mkAdmin id (ac_username admin_create)
                           (hash_password salt (ac_password admin_create)) in
      (inr (admin_response admin), insert_one admin c)
  end.

Definition set_admin (salt : string) (admin_update : AdminCreate) (a : Admin) : Admin :=
  mkAdmin (a_id a) (ac_username admin_update)
          (hash_password salt (ac_password admin_update)).

Definition update_admin (salt : string) (admin_id : string) (admin_update : AdminCreate)
    (c : list Admin) : (exn + AdminResponse) * list Admin :=
  match find_one (by_a_id admin_id) c with
  | None => (inl (HTTPException 404 "Admin not found"), c)
  | Some _ =>
      let c' := update_one (by_a_id admin_id) (set_admin salt admin_update) c in
      match find_one (by_a_id admin_id) c' with
      | Some updated_admin => (inr (admin_response updated_admin), c')
      | None => (inl TypeError, c')
      end
  end.

Definition delete_admin (admin_id : string) (c : list Admin)
  : (exn + string) * list Admin :=
  let '(deleted_count, c') := delete_one (by_a_id admin_id) c in
  if Nat.eqb deleted_count 0
  then (inl (HTTPException 404 "Admin not found"), c')
  else (inr "Admin deleted successfully", c').

End Admins.

(** ** Invariants of the store *)

(** At most one record per (attendee, session) pair. *)
Definition pairs_unique (s : DB) : Prop :=
  forall ij ik, count_pair ij ik s <= 1.


(** A toy hash for runs of the administrator handlers: the password itself. *)
Definition plain_hashpw (password salt : string) : string := password.
Definition plain_checkpw (password hashed : string) : bool := String.eqb password hashed.

(** A toy token: the username itself. *)
Definition plain_jwt_encode (username : string) : string := username.
Definition plain_jwt_decode (token : string) : option (option string) := Some (Some token).

(** Two administrators whose hashes are those of [plain_hashpw]. *)
Definition admin_satu : Admin := mkAdmin "a-1" "adminrh" "cintaquran".
Definition admin_dua : Admin := mkAdmin "a-2" "pesmarh" "rhmantab".

Definition undian (i : nat) : string * string := ("a-" ++ nomor i, "garam-" ++ nomor i).

(** * Properties *)

Lemma date_eqb_eq (a b : date) : date_eqb a b = true <-> a = b.
Proof.
  destruct a as [y m d], b as [y' m' d']; unfold date_eqb; simpl.
  rewrite !andb_true_iff, !Z.eqb_eq. split.
  - intros [[-> ->] ->]; reflexivity.
  - intros H; injection H as -> -> ->; auto.
Qed.


(** ** Storage lemmas *)

Lemma find_one_app_r {A} (flt : A -> bool) (c : list A) (x : A) :
  find_one flt c = None -> flt x = true -> find_one flt (c ++ [x]) = Some x.
Proof.
  unfold find_one. induction c as [|y c IH]; simpl; intros Hn Hx.
  - now rewrite Hx.
  - destruct (flt y); [discriminate | auto].
Qed.

Lemma find_one_none_filter {A} (flt : A -> bool) (c : list A) :
  find_one flt c = None -> filter flt c = [].
Proof.
  unfold find_one. induction c as [|y c IH]; simpl; intros H; [reflexivity|].
  destruct (flt y); [discriminate | auto].
Qed.


Lemma reject_injective (a b : Rejection) : reject a = reject b -> a = b.
Proof. destruct a, b; intros H; try reflexivity; discriminate H. Qed.

(** ** The admission gate *)

Ltac gate_unfold :=
  unfold create_presensi, gate_in_order, order_in_code, passes, session_date,
    lookup_kajian, lookup_jamaah, lookup_presensi, parse_tanggal, on_failure,
    insert_presensi, bind, gets, modify, ret, raise, reject, confirm, in_band,
    with_presensi, new_presensi, insert_one, rejection_message in *.

(** What the gate does once its three lookups are known. *)
Lemma create_presensi_found parse env pc s k j :
  lookup_kajian (pc_id_kajian pc) s = Some k ->
  lookup_jamaah (pc_id_jamaah pc) s = Some j ->
  lookup_presensi (pc_id_jamaah pc) (pc_id_kajian pc) s = None ->
  create_presensi parse env pc s =
    match parse (k_tanggal k) with
    | None => Exc ValueError s
    | Some d =>
        if date_eqb d (now_date env) && in_band (now_hour env)
        then Ret (confirm j k) (with_presensi (new_presensi env pc) s)
        else Ret (reject WindowClosed) s
    end.
Proof.
  intros Hk Hj Hp. gate_unfold. rewrite Hk, Hj, Hp.
  destruct (parse (k_tanggal k)) as [d|]; [|reflexivity].
  destruct (date_eqb d (now_date env)); simpl; [|reflexivity].
  destruct ((6 <=? now_hour env)%Z && (now_hour env <=? 23)%Z); reflexivity.
Qed.

Lemma create_presensi_no_kajian parse env pc s :
  lookup_kajian (pc_id_kajian pc) s = None ->
  create_presensi parse env pc s = Ret (reject SessionNotFound) s.
Proof. intros Hk. gate_unfold. now rewrite Hk. Qed.

Lemma create_presensi_no_jamaah parse env pc s k :
  lookup_kajian (pc_id_kajian pc) s = Some k ->
  lookup_jamaah (pc_id_jamaah pc) s = None ->
  create_presensi parse env pc s = Ret (reject AttendeeNotFound) s.
Proof. intros Hk Hj. gate_unfold. now rewrite Hk, Hj. Qed.

Lemma create_presensi_existing parse env pc s k j p :
  lookup_kajian (pc_id_kajian pc) s = Some k ->
  lookup_jamaah (pc_id_jamaah pc) s = Some j ->
  lookup_presensi (pc_id_jamaah pc) (pc_id_kajian pc) s = Some p ->
  create_presensi parse env pc s = Ret (reject AlreadyRecorded) s.
Proof. intros Hk Hj Hp. gate_unfold. now rewrite Hk, Hj, Hp. Qed.

(** What the code does, for every request and store: it answers as the
    ordered checks do once the parse of the stored date is counted among
    them, between the duplicate check and the date comparison. *)
Theorem create_presensi_checks_in_order :
  forall parse env pc s,
    create_presensi parse env pc s = gate_in_order parse order_in_code env pc s.
Proof.
  intros parse env pc s.
  destruct (lookup_kajian (pc_id_kajian pc) s) as [k|] eqn:Hk.
  2:{ rewrite (create_presensi_no_kajian _ _ _ _ Hk).
      unfold gate_in_order, order_in_code; simpl. now rewrite Hk. }
  destruct (lookup_jamaah (pc_id_jamaah pc) s) as [j|] eqn:Hj.
  2:{ rewrite (create_presensi_no_jamaah _ _ _ _ _ Hk Hj).
      unfold gate_in_order, order_in_code; simpl. now rewrite Hk, Hj. }
  destruct (lookup_presensi (pc_id_jamaah pc) (pc_id_kajian pc) s) as [p|] eqn:Hp.
  { rewrite (create_presensi_existing _ _ _ _ _ _ _ Hk Hj Hp).
    unfold gate_in_order, order_in_code; simpl. now rewrite Hk, Hj, Hp. }
  rewrite (create_presensi_found _ _ _ _ _ _ Hk Hj Hp).
  unfold gate_in_order, order_in_code, session_date; simpl.
  unfold session_date. rewrite Hk, Hj, Hp; simpl.
  destruct (parse (k_tanggal k)) as [d|]; simpl; [|reflexivity].
  destruct (date_eqb d (now_date env)); simpl; [|reflexivity].
  destruct (in_band (now_hour env)); reflexivity.
Qed.

(** On every store whose session dates parse, the gate answers exactly as
    the five checks in the stated order do: session existence, attendee
    existence, duplicate record, date equality, hour band, the first failing
    one deciding, and a confirmation with the attendee's name and the
    session's title when all pass. *)
Lemma create_presensi_follows_claimed_order parse env pc s :
  (forall k, lookup_kajian (pc_id_kajian pc) s = Some k -> parse (k_tanggal k) <> None) ->
  create_presensi parse env pc s = gate_in_order parse order_as_claimed env pc s.
Proof.
  intros Hparse.
  destruct (lookup_kajian (pc_id_kajian pc) s) as [k|] eqn:Hk.
  2:{ rewrite (create_presensi_no_kajian _ _ _ _ Hk).
      unfold gate_in_order, order_as_claimed; simpl. now rewrite Hk. }
  destruct (lookup_jamaah (pc_id_jamaah pc) s) as [j|] eqn:Hj.
  2:{ rewrite (create_presensi_no_jamaah _ _ _ _ _ Hk Hj).
      unfold gate_in_order, order_as_claimed; simpl. now rewrite Hk, Hj. }
  destruct (lookup_presensi (pc_id_jamaah pc) (pc_id_kajian pc) s) as [p|] eqn:Hp.
  { rewrite (create_presensi_existing _ _ _ _ _ _ _ Hk Hj Hp).
    unfold gate_in_order, order_as_claimed; simpl. now rewrite Hk, Hj, Hp. }
  rewrite (create_presensi_found _ _ _ _ _ _ Hk Hj Hp).
  unfold gate_in_order, order_as_claimed, session_date; simpl.
  unfold session_date. rewrite Hk, Hj, Hp; simpl.
  destruct (parse (k_tanggal k)) as [d|] eqn:Hd; simpl.
  - destruct (date_eqb d (now_date env)); simpl; [|reflexivity].
    destruct (in_band (now_hour env)); reflexivity.
  - exfalso. now apply (Hparse k).
Qed.

(** C1, at a failing input: a stored session whose date string is [besok],
    an existing attendee, no prior record.  The five checks in the stated
    order answer [WindowClosed]; the code raises [ValueError] from the
    unguarded parse of the date and returns no payload. *)
Theorem create_presensi_order_as_claimed_fails :
  let pc := mkPresensiCreate "j-1" "k-3" in
  create_presensi iso_calendar_date env_pagi pc db_awal = Exc ValueError db_awal
  /\ gate_in_order iso_calendar_date order_as_claimed env_pagi pc db_awal
     = Ret (reject WindowClosed) db_awal
  /\ create_presensi iso_calendar_date env_pagi pc db_awal
     <> gate_in_order iso_calendar_date order_as_claimed env_pagi pc db_awal.
Proof.
  repeat split; try (vm_compute; reflexivity).
  vm_compute. discriminate.
Qed.



(** C3, as amended.  Against a session whose stored date parses to a date
    other than the current local one, no check-in is confirmed and nothing
    is written: an attendee-id that refers to no stored attendee answers
    [AttendeeNotFound], whether or not a record of the pair is stored; an
    existing attendee with a record of the pair stored answers
    [AlreadyRecorded]; an existing attendee with no record of the pair
    answers [WindowClosed]. *)
Theorem other_date_never_admits :
  forall parse env pc s k d,
    lookup_kajian (pc_id_kajian pc) s = Some k ->
    parse (k_tanggal k) = Some d ->
    d <> now_date env ->
    create_presensi parse env pc s =
      Ret (reject
             match lookup_jamaah (pc_id_jamaah pc) s with
             | None => AttendeeNotFound
             | Some _ =>
                 match lookup_presensi (pc_id_jamaah pc) (pc_id_kajian pc) s with
                 | Some _ => AlreadyRecorded
                 | None => WindowClosed
                 end
             end) s.
Proof.
  intros parse env pc s k d Hk Hd Hne.
  destruct (lookup_jamaah (pc_id_jamaah pc) s) as [j|] eqn:Hj.
  2:{ now apply create_presensi_no_jamaah with (k := k). }
  destruct (lookup_presensi (pc_id_jamaah pc) (pc_id_kajian pc) s) as [p|] eqn:Hp.
  { now apply create_presensi_existing with (k := k) (j := j) (p := p). }
  rewrite (create_presensi_found _ _ _ _ _ _ Hk Hj Hp), Hd.
  destruct (date_eqb d (now_date env)) eqn:E; [|reflexivity].
  apply date_eqb_eq in E. contradiction.
Qed.

(** Budi against the session dated the day before. *)
Lemma other_date_never_admits_witness :
  create_presensi iso_calendar_date env_pagi (mkPresensiCreate "j-1" "k-2") db_awal
  = Ret (reject WindowClosed) db_awal.
Proof.
  apply (other_date_never_admits iso_calendar_date env_pagi
           (mkPresensiCreate "j-1" "k-2") db_awal kajian_kemarin (mkDate 2024 5 16)).
  - reflexivity.
  - reflexivity.
  - discriminate.
Defined.

(** C3, as stated, fails: the session's date is not today's, the attendee-id
    is unknown, and the answer is [AttendeeNotFound], not [WindowClosed]. *)
Lemma other_date_unknown_attendee_not_window_closed :
  let pc := mkPresensiCreate "tidak-ada" "k-2" in
  session_date iso_calendar_date pc db_awal = Some (mkDate 2024 5 16)
  /\ mkDate 2024 5 16 <> now_date env_pagi
  /\ create_presensi iso_calendar_date env_pagi pc db_awal
     = Ret (reject AttendeeNotFound) db_awal
  /\ create_presensi iso_calendar_date env_pagi pc db_awal
     <> Ret (reject WindowClosed) db_awal.
Proof.
  repeat split; try (vm_compute; reflexivity); vm_compute; discriminate.
Qed.







(** C5.  A check-in that succeeds leaves the store with exactly one more
    attendance record, the one of the request, appended; a check-in that is
    rejected, whatever the kind, leaves the store unchanged (and so does one
    that raises). *)
Theorem create_presensi_inserts_once_or_nothing :
  forall parse env pc s,
    match create_presensi parse env pc s with
    | Ret r s' =>
        if success r
        then s' = mkDB (db_jamaah s) (db_kajian s)
                       (db_presensi s ++ [new_presensi env pc])%list
        else s' = s /\ exists kind, r = reject kind
    | Exc _ s' => s' = s
    end.
Proof.
  intros parse env pc s.
  destruct (lookup_kajian (pc_id_kajian pc) s) as [k|] eqn:Hk.
  2:{ rewrite (create_presensi_no_kajian _ _ _ _ Hk); simpl. eauto. }
  destruct (lookup_jamaah (pc_id_jamaah pc) s) as [j|] eqn:Hj.
  2:{ rewrite (create_presensi_no_jamaah _ _ _ _ _ Hk Hj); simpl. eauto. }
  destruct (lookup_presensi (pc_id_jamaah pc) (pc_id_kajian pc) s) as [p|] eqn:Hp.
  { rewrite (create_presensi_existing _ _ _ _ _ _ _ Hk Hj Hp); simpl. eauto. }
  rewrite (create_presensi_found _ _ _ _ _ _ Hk Hj Hp).
  destruct (parse (k_tanggal k)) as [d|]; [|reflexivity].
  destruct (date_eqb d (now_date env) && in_band (now_hour env)); simpl; eauto.
Qed.

(** C10.  [create_kajian] stores whatever date string it is given; when that
    string does not parse (and the new id is fresh), a check-in against the
    stored session by an existing attendee with no prior record raises
    [ValueError] from the date parse: no payload is returned and nothing is
    written. *)
Theorem unparseable_date_raises :
  forall parse env kc s env' pc j,
    parse (kc_tanggal kc) = None ->
    lookup_kajian (uuid4 env) s = None ->
    pc_id_kajian pc = uuid4 env ->
    lookup_jamaah (pc_id_jamaah pc) s = Some j ->
    lookup_presensi (pc_id_jamaah pc) (pc_id_kajian pc) s = None ->
    let k := mkKajian (uuid4 env) (kc_judul kc) (kc_tanggal kc)
                      (kc_jam_mulai kc) (kc_jam_selesai kc) in
    let s1 := mkDB (db_jamaah s) (db_kajian s ++ [k])%list (db_presensi s) in
    create_kajian env kc s = Ret k s1
    /\ lookup_kajian (pc_id_kajian pc) s1 = Some k
    /\ create_presensi parse env' pc s1 = Exc ValueError s1.
Proof.
  intros parse env kc s env' pc j Hd Hfresh Hid Hj Hp k s1.
  assert (Hk : lookup_kajian (pc_id_kajian pc) s1 = Some k).
  { rewrite Hid. unfold lookup_kajian, s1; simpl.
    apply find_one_app_r; [exact Hfresh|].
    unfold by_k_id, k; simpl. apply String.eqb_refl. }
  repeat split.
  - exact Hk.
  - rewrite (create_presensi_found parse env' pc s1 k j Hk Hj Hp).
    simpl. now rewrite Hd.
Qed.

(** A session created with the date string [lusa], then Budi checks in. *)
Lemma unparseable_date_raises_witness :
  let kc := mkKajianCreate "Kajian Lusa" "lusa" "19:00" "21:00" in
  let env := mkEnv "k-4" hari_ini 8 "2024-05-17T01:00:00+00:00" in
  let pc := mkPresensiCreate "j-1" "k-4" in
  let k := mkKajian "k-4" "Kajian Lusa" "lusa" "19:00" "21:00" in
  let s1 := mkDB (db_jamaah db_awal) (db_kajian db_awal ++ [k])%list (db_presensi db_awal) in
  create_kajian env kc db_awal = Ret k s1
  /\ lookup_kajian "k-4" s1 = Some k
  /\ create_presensi iso_calendar_date env_pagi pc s1 = Exc ValueError s1.
Proof.
  apply (unparseable_date_raises iso_calendar_date
           (mkEnv "k-4" hari_ini 8 "2024-05-17T01:00:00+00:00")
           (mkKajianCreate "Kajian Lusa" "lusa" "19:00" "21:00")
           db_awal env_pagi (mkPresensiCreate "j-1" "k-4") budi);
    reflexivity.
Defined.

(** ** The report *)

Lemma report_loop_rows (l : list Presensi) :
  forall acc s, report_loop l acc s = Ret (acc ++ detail_rows s l)%list s.
Proof.
  induction l as [|p l IH]; intros acc s; simpl.
  - unfold ret. now rewrite app_nil_r.
  - unfold bind, gets. fold (lookup_jamaah (p_id_jamaah p) s).
    destruct (lookup_jamaah (p_id_jamaah p) s) as [j|]; rewrite IH.
    + now rewrite <- app_assoc.
    + reflexivity.
Qed.

Lemma detail_rows_one_per_live_record (s : DB) (l : list Presensi) :
  Forall2 (row_of_record s) (filter (attendee_exists s) l) (detail_rows s l).
Proof.
  induction l as [|p l IH]; simpl; [constructor|].
  unfold attendee_exists at 1.
  destruct (lookup_jamaah (p_id_jamaah p) s) as [j|] eqn:Hj; simpl.
  - constructor; [|exact IH]. exists j. split; [exact Hj | reflexivity].
  - exact IH.
Qed.

Lemma detail_rows_length (s : DB) (l : list Presensi) :
  List.length (detail_rows s l) = List.length (filter (attendee_exists s) l).
Proof.
  symmetry. eapply Forall2_length. apply detail_rows_one_per_live_record.
Qed.

Lemma get_attendance_report_found kajian_id s k :
  lookup_kajian kajian_id s = Some k ->
  let rows := detail_rows s (firstn 1000 (records_of kajian_id s)) in
  get_attendance_report kajian_id s
  = Ret (mkReport (as_found k) (List.length rows) rows) s.
Proof.
  intros Hk rows. unfold get_attendance_report, bind, gets.
  fold (lookup_kajian kajian_id s). rewrite Hk.
  unfold find_to_list. fold (records_of kajian_id s).
  rewrite report_loop_rows. reflexivity.
Qed.

(** Whatever the handler returns for a known session, the encoder refuses
    it: the session document carries its [_id]. *)
Lemma get_attendance_report_route_raises kajian_id s k :
  lookup_kajian kajian_id s = Some k ->
  get_attendance_report_route kajian_id s = Exc ValueError s.
Proof.
  intros Hk. unfold get_attendance_report_route, bind.
  rewrite (get_attendance_report_found _ _ _ Hk). reflexivity.
Qed.

(** C6, at two failing inputs.  For the session with three records, two of
    attendees still stored, the handler builds a report of two rows and the
    route returns none of it: the session document goes into the answer as
    found, with its [_id], and the encoder raises [ValueError].  For the
    session with 1001 records of stored attendees, the handler reads 1000 of
    them ([to_list(1000)], under the comment [Get all attendance for this
    kajian]) and counts 1000. *)
Theorem report_not_delivered_and_capped :
  lookup_kajian "k-1" db_laporan = Some kajian_subuh
  /\ List.length (live_records "k-1" db_laporan) = 2
  /\ option_map total_hadir (value_of (get_attendance_report "k-1" db_laporan)) = Some 2
  /\ get_attendance_report_route "k-1" db_laporan = Exc ValueError db_laporan
  /\ lookup_kajian "k-1" db_ramai = Some kajian_subuh
  /\ List.length (live_records "k-1" db_ramai) = 1001
  /\ option_map total_hadir (value_of (get_attendance_report "k-1" db_ramai)) = Some 1000
  /\ option_map (fun rep => List.length (detail_kehadiran rep))
                (value_of (get_attendance_report "k-1" db_ramai)) = Some 1000.
Proof.
  split; [reflexivity|].
  split; [reflexivity|].
  split; [reflexivity|].
  split; [apply get_attendance_report_route_raises with (k := kajian_subuh); reflexivity|].
  split; [vm_compute; reflexivity|].
  split; [vm_compute; reflexivity|].
  split; vm_compute; reflexivity.
Qed.

(** ** The CSV export *)

Lemma csv_loop_rows (l : list Presensi) :
  forall i acc s, csv_loop i l acc s = Ret (acc ++ csv_rows s i l)%list s.
Proof.
  induction l as [|p l IH]; intros i acc s; simpl.
  - unfold ret. now rewrite app_nil_r.
  - unfold bind, gets. fold (lookup_jamaah (p_id_jamaah p) s).
    destruct (lookup_jamaah (p_id_jamaah p) s) as [j|]; rewrite IH.
    + now rewrite <- app_assoc.
    + reflexivity.
Qed.

(** The loop appends as many data rows as the report has detail rows. *)
Lemma csv_rows_length (s : DB) (l : list Presensi) :
  forall i, List.length (csv_rows s i l) = List.length (detail_rows s l).
Proof.
  induction l as [|p l IH]; intros i; simpl; [reflexivity|].
  destruct (lookup_jamaah (p_id_jamaah p) s); simpl; now rewrite IH.
Qed.

(** The [No] cell of a data row is the 1-based position of its record among
    the records retrieved, skipped ones included. *)
Lemma csv_rows_index (s : DB) (l : list Presensi) :
  forall i,
    map row_index (csv_rows s i l)
    = map (fun np => Some (fst np))
          (filter (fun np => attendee_exists s (snd np))
                  (combine (seq i (List.length l)) l)).
Proof.
  induction l as [|p l IH]; intros i; simpl; [reflexivity|].
  unfold attendee_exists at 1.
  destruct (lookup_jamaah (p_id_jamaah p) s); simpl; now rewrite IH.
Qed.

(** Every export of an existing session stops at [csv.writer]: the object it
    is given is a [str]. *)
Lemma export_attendance_csv_raises kajian_id s k :
  lookup_kajian kajian_id s = Some k ->
  export_attendance_csv kajian_id s = Exc TypeError s.
Proof.
  intros Hk. unfold export_attendance_csv, bind, gets.
  fold (lookup_kajian kajian_id s). rewrite Hk. reflexivity.
Qed.

Lemma export_build_response_body k l s :
  option_map body (value_of (export_build_response k l s))
  = Some (csv_string_of (csv_header :: csv_rows s 1 l)).
Proof.
  unfold export_build_response, bind. rewrite csv_loop_rows. reflexivity.
Qed.

(** C7, at a failing input: a session with three records, the attendee of
    the second one deleted.  The report has two detail rows; the export
    raises [TypeError] at [csv.writer] and emits no row at all; and the rows
    its loop builds are numbered 1 and 3, not 1 and 2. *)
Theorem export_rows_not_sequential :
  option_map (fun rep => List.length (detail_kehadiran rep))
             (value_of (get_attendance_report "k-1" db_laporan)) = Some 2
  /\ export_attendance_csv "k-1" db_laporan = Exc TypeError db_laporan
  /\ option_map (fun csv_data => map row_index (csv_rows_of csv_data))
                (value_of (csv_loop 1 (find_to_list (by_p_kajian "k-1") 1000
                                                    (db_presensi db_laporan))
                                    [csv_header] db_laporan))
     = Some [Some 1; Some 3].
Proof.
  split; [vm_compute; reflexivity|].
  split; [apply export_attendance_csv_raises with (k := kajian_subuh); reflexivity|].
  vm_compute; reflexivity.
Qed.

(** C8, at a failing input: an existing session.  The export raises
    [TypeError] and returns no byte stream; and the body its remaining lines
    build is the quoted header line alone, whose first byte is a double
    quote: the byte-order mark went to a buffer the response is not made
    from. *)
Theorem export_has_no_byte_order_mark :
  export_attendance_csv "k-1" db_awal = Exc TypeError db_awal
  /\ option_map body (value_of (export_build_response kajian_subuh [] db_awal))
     = Some (csv_line csv_header)
  /\ String.prefix utf8_bom (csv_line csv_header) = false
  /\ String.get 0 (csv_line csv_header) = Some (ascii_of_nat 34)
  /\ String.prefix "No,Nama Jamaah,No HP,Waktu Presensi" (csv_line csv_header) = false.
Proof.
  split; [apply export_attendance_csv_raises with (k := kajian_subuh); reflexivity|].
  repeat split; vm_compute; reflexivity.
Qed.

(** ** Phone numbers *)

Lemma present_phones_app (c d : list Jamaah) :
  present_phones (c ++ d) = (present_phones c ++ present_phones d)%list.
Proof. unfold present_phones. apply flat_map_app. Qed.

Lemma find_by_hp_none_not_present (h : string) (c : list Jamaah) :
  find_one (by_hp h) c = None -> ~ In h (present_phones c).
Proof.
  unfold find_one. induction c as [|j c IH]; simpl; intros Hn Hin; [exact Hin|].
  unfold by_hp in Hn at 1.
  destruct (j_hp j) as [h'|]; simpl in Hin.
  - destruct (String.eqb_spec h' h) as [E|Hne]; [discriminate|].
    destruct (String.eqb h' ""); simpl in Hin.
    + now apply IH.
    + destruct Hin as [E|Hin]; [contradiction | now apply IH].
  - now apply IH.
Qed.

(** Creating an attendee with the phone of a stored attendee fails with
    [Conflict] (status 400) and writes nothing. *)
Lemma create_jamaah_conflict env jc s h j :
  jc_hp jc = Some h -> h <> "" ->
  find_one (by_hp h) (db_jamaah s) = Some j ->
  create_jamaah env jc s = Exc (HTTPException 400 "Phone number already exists") s.
Proof.
  intros Hh Hne Hf. unfold create_jamaah, bind, gets. rewrite Hh.
  destruct (String.eqb_spec h "") as [->|_]; [contradiction|]. simpl.
  now rewrite Hf.
Qed.

(** Creating an attendee with no phone always succeeds. *)
Lemma create_jamaah_no_phone env jc s :
  jc_hp jc = None ->
  create_jamaah env jc s
  = Ret (mkJamaah (uuid4 env) (jc_nama jc) None)
        (mkDB (db_jamaah s ++ [mkJamaah (uuid4 env) (jc_nama jc) None])%list
              (db_kajian s) (db_presensi s)).
Proof. intros Hh. unfold create_jamaah, bind. rewrite Hh. reflexivity. Qed.

(** [create_jamaah] keeps present phones unique. *)
Lemma create_jamaah_keeps_phone_unique env jc s :
  phone_unique s -> phone_unique (store_of (create_jamaah env jc s)).
Proof.
  unfold phone_unique. intros Hu.
  unfold create_jamaah, bind, gets, insert_jamaah, modify, ret, raise, insert_one.
  destruct (jc_hp jc) as [h|] eqn:Hh; simpl.
  - destruct (String.eqb_spec h "") as [->|Hne]; simpl.
    + rewrite present_phones_app; simpl. now rewrite app_nil_r.
    + destruct (find_one (by_hp h) (db_jamaah s)) as [j|] eqn:Hf; simpl; [exact Hu|].
      rewrite present_phones_app; simpl.
      destruct (String.eqb_spec h "") as [->|_]; [contradiction|]. simpl.
      apply NoDup_app; [exact Hu | constructor; [intros []|constructor] |].
      intros x Hx [<-|[]]. revert Hx. now apply find_by_hp_none_not_present.
  - rewrite present_phones_app; simpl. now rewrite app_nil_r.
Qed.

Lemma NoDup_app_apart {A} (l l' : list A) :
  NoDup (l ++ l') -> forall x, In x l -> In x l' -> False.
Proof.
  induction l as [|a l IH]; simpl; intros Hu x Hl Hr; [exact Hl|].
  inversion Hu as [|a' r Hnin Hu']; subst.
  destruct Hl as [->|Hl].
  - apply Hnin. apply in_or_app. now right.
  - now apply (IH Hu' x).
Qed.

Lemma delete_one_present_phones (i : string) (c : list Jamaah) :
  forall h, In h (present_phones (snd (delete_one (by_j_id i) c))) ->
            In h (present_phones c).
Proof.
  induction c as [|j c IH]; simpl; intros h Hin; [exact Hin|].
  destruct (by_j_id i j).
  - simpl in Hin. apply in_or_app. now right.
  - destruct (delete_one (by_j_id i) c) as [n c'] eqn:E; simpl in *.
    apply in_app_or in Hin. apply in_or_app.
    destruct Hin as [Hin|Hin]; [now left | right; now apply IH].
Qed.

(** [delete_jamaah] keeps present phones unique. *)
Lemma delete_jamaah_keeps_phone_unique i s :
  phone_unique s -> phone_unique (store_of (delete_jamaah i s)).
Proof.
  unfold phone_unique, delete_jamaah.
  pose proof (delete_one_present_phones i (db_jamaah s)) as Hsub.
  destruct (delete_one (by_j_id i) (db_jamaah s)) as [n c'] eqn:E. simpl in Hsub.
  assert (Hgen : NoDup (present_phones (db_jamaah s)) -> NoDup (present_phones c')).
  { clear Hsub. revert n c' E.
    induction (db_jamaah s) as [|j c IH]; simpl; intros n c' E Hu.
    - injection E as <- <-. constructor.
    - destruct (by_j_id i j).
      + injection E as <- <-. now apply NoDup_app_remove_l in Hu.
      + destruct (delete_one (by_j_id i) c) as [m d] eqn:Ed.
        injection E as <- <-. simpl.
        pose proof (delete_one_present_phones i c) as Hs. rewrite Ed in Hs. simpl in Hs.
        apply NoDup_app.
        * now apply NoDup_app_remove_r in Hu.
        * apply (IH m d eq_refl). now apply NoDup_app_remove_l in Hu.
        * intros x Hx Hd. apply Hs in Hd.
          exact (NoDup_app_apart _ _ Hu x Hx Hd). }
  intros Hu. destruct (Nat.eqb n 0); simpl; now apply Hgen.
Qed.

(** C9, at a failing input: two attendees with different phones; updating
    the second with the phone of the first succeeds, and two attendees then
    hold the same phone.  [update_jamaah] has no phone check, the one
    [create_jamaah] makes. *)
Theorem update_jamaah_breaks_phone_unique :
  let upd := mkJamaahCreate "Siti" (Some "0812000111") in
  let s' := mkDB [budi; mkJamaah "j-2" "Siti" (Some "0812000111")]
                 (db_kajian db_awal) (db_presensi db_awal) in
  phone_unique db_awal
  /\ update_jamaah "j-2" upd db_awal = Ret (mkJamaah "j-2" "Siti" (Some "0812000111")) s'
  /\ present_phones (db_jamaah s') = ["0812000111"; "0812000111"]
  /\ ~ phone_unique s'.
Proof.
  simpl. split; [|split; [|split]].
  - unfold phone_unique; simpl.
    constructor; [intros [H|[]]; discriminate H|].
    constructor; [intros []|constructor].
  - reflexivity.
  - reflexivity.
  - unfold phone_unique; simpl. intros H. inversion H as [|x l Hin _]; subst.
    apply Hin. left; reflexivity.
Qed.

(** * Further properties of the handlers *)

(** ** Storage: update and delete *)

Lemma find_one_some_in {A} (flt : A -> bool) (c : list A) (x : A) :
  find_one flt c = Some x -> In x c /\ flt x = true.
Proof. unfold find_one. apply find_some. Qed.

Lemma find_one_update_one {A} (flt : A -> bool) (set : A -> A) (c : list A) :
  (forall x, flt (set x) = flt x) ->
  find_one flt (update_one flt set c) = option_map set (find_one flt c).
Proof.
  intros Hset. unfold find_one. induction c as [|x c IH]; simpl; [reflexivity|].
  destruct (flt x) eqn:E; simpl.
  - now rewrite Hset, E.
  - now rewrite E.
Qed.

Lemma map_update_one {A B} (flt : A -> bool) (set : A -> A) (key : A -> B) (c : list A) :
  (forall x, key (set x) = key x) ->
  map key (update_one flt set c) = map key c.
Proof.
  intros Hk. induction c as [|x c IH]; simpl; [reflexivity|].
  destruct (flt x); simpl; [now rewrite Hk | now rewrite IH].
Qed.

Lemma delete_one_none {A} (flt : A -> bool) (c : list A) :
  find_one flt c = None -> delete_one flt c = (0, c).
Proof.
  unfold find_one. induction c as [|x c IH]; simpl; intros H; [reflexivity|].
  destruct (flt x); [discriminate|]. now rewrite (IH H).
Qed.

Lemma delete_one_some {A} (flt : A -> bool) (c : list A) (x : A) :
  find_one flt c = Some x ->
  fst (delete_one flt c) = 1
  /\ S (List.length (snd (delete_one flt c))) = List.length c.
Proof.
  unfold find_one. induction c as [|y c IH]; simpl; intros H; [discriminate|].
  destruct (flt y); [split; reflexivity|].
  destruct (IH H) as [H1 H2].
  destruct (delete_one flt c) as [n c']; simpl in *. now rewrite H2.
Qed.

(** Collections keyed by a string: lookups after a delete. *)
Section Keyed.

Context {A : Type} (key : A -> string).

Definition by_key (i : string) (x : A) : bool := String.eqb (key x) i.

Lemma find_by_key_not_in (i : string) (c : list A) :
  ~ In i (map key c) -> find_one (by_key i) c = None.
Proof.
  unfold find_one, by_key. induction c as [|x c IH]; simpl; intros H; [reflexivity|].
  destruct (String.eqb_spec (key x) i) as [E|_]; [exfalso; auto | auto].
Qed.

Lemma find_after_delete (i i' : string) (c : list A) :
  NoDup (map key c) ->
  find_one (by_key i') (snd (delete_one (by_key i) c))
  = if String.eqb i' i then None else find_one (by_key i') c.
Proof.
  unfold find_one. induction c as [|x c IH]; simpl; intros Hu.
  - now destruct (String.eqb i' i).
  - inversion Hu as [|? ? Hnin Hu']; subst.
    destruct (by_key i x) eqn:E; simpl.
    + apply String.eqb_eq in E.
      destruct (String.eqb_spec i' i) as [->|Hne'].
      * apply (find_by_key_not_in i c). now rewrite <- E.
      * unfold by_key at 2. destruct (String.eqb_spec (key x) i'); [congruence|reflexivity].
    + apply String.eqb_neq in E. specialize (IH Hu').
      destruct (delete_one (by_key i) c) as [n c']; simpl in *.
      unfold by_key at 1 3.
      destruct (String.eqb_spec (key x) i') as [E'|_]; [|exact IH].
      destruct (String.eqb_spec i' i); [congruence | reflexivity].
Qed.

End Keyed.

(** ** The gate keeps the store well formed *)

Lemma by_pair_true ij ik p :
  by_pair ij ik p = true -> p_id_jamaah p = ij /\ p_id_kajian p = ik.
Proof.
  unfold by_pair. rewrite andb_true_iff, !String.eqb_eq. tauto.
Qed.

(** The store a check-in leaves: the old one, or the old one with the new
    record when nothing of the pair was stored. *)
Lemma create_presensi_store parse env pc s :
  store_of (create_presensi parse env pc s) = s
  \/ (store_of (create_presensi parse env pc s) = with_presensi (new_presensi env pc) s
      /\ lookup_presensi (pc_id_jamaah pc) (pc_id_kajian pc) s = None
      /\ lookup_jamaah (pc_id_jamaah pc) s <> None
      /\ lookup_kajian (pc_id_kajian pc) s <> None).
Proof.
  destruct (lookup_kajian (pc_id_kajian pc) s) as [k|] eqn:Hk.
  2:{ left. now rewrite (create_presensi_no_kajian _ _ _ _ Hk). }
  destruct (lookup_jamaah (pc_id_jamaah pc) s) as [j|] eqn:Hj.
  2:{ left. now rewrite (create_presensi_no_jamaah _ _ _ _ _ Hk Hj). }
  destruct (lookup_presensi (pc_id_jamaah pc) (pc_id_kajian pc) s) as [p|] eqn:Hp.
  { left. now rewrite (create_presensi_existing _ _ _ _ _ _ _ Hk Hj Hp). }
  rewrite (create_presensi_found _ _ _ _ _ _ Hk Hj Hp).
  destruct (parse (k_tanggal k)) as [d|]; [|now left].
  destruct (date_eqb d (now_date env) && in_band (now_hour env)); [right|now left].
  simpl. repeat split; congruence.
Qed.

(** X1.  Check-ins made one after the other never store a second record of
    a pair: a store with at most one record per (attendee, session) pair
    still has at most one per pair after any check-in. *)
Theorem create_presensi_keeps_pairs_unique :
  forall parse env pc s,
    pairs_unique s -> pairs_unique (store_of (create_presensi parse env pc s)).
Proof.
  intros parse env pc s Hu.
  destruct (create_presensi_store parse env pc s) as [->|[-> [Hp _]]]; [exact Hu|].
  intros ij ik. unfold count_pair, with_presensi; simpl.
  rewrite filter_app, length_app; simpl.
  destruct (by_pair ij ik (new_presensi env pc)) eqn:E; simpl.
  - apply by_pair_true in E. simpl in E. destruct E as [<- <-].
    unfold lookup_presensi in Hp. rewrite (find_one_none_filter _ _ Hp). simpl. lia.
  - specialize (Hu ij ik). unfold count_pair in Hu. lia.
Qed.

Lemma create_presensi_keeps_pairs_unique_witness :
  pairs_unique (store_of (create_presensi iso_calendar_date env_pagi
                            (mkPresensiCreate "j-1" "k-1") db_awal)).
Proof.
  apply (create_presensi_keeps_pairs_unique iso_calendar_date env_pagi
           (mkPresensiCreate "j-1" "k-1") db_awal).
  intros ij ik. unfold count_pair. simpl. lia.
Defined.




(** ** Report and export, further *)

(** X4.  The report route never delivers a report and never writes: it
    raises 404 for an unknown session, and for every known session
    [ValueError] from the encoding of the handler's return value, whose
    session document carries the [_id] of the store. *)
Theorem report_route_always_raises :
  forall kajian_id s,
    get_attendance_report_route kajian_id s
    = Exc (match lookup_kajian kajian_id s with
           | Some _ => ValueError
           | None => HTTPException 404 "Kajian not found"
           end) s.
Proof.
  intros kajian_id s.
  destruct (lookup_kajian kajian_id s) as [k|] eqn:Hk.
  - now apply get_attendance_report_route_raises with (k := k).
  - unfold get_attendance_report_route, get_attendance_report, bind, gets, raise.
    fold (lookup_kajian kajian_id s). now rewrite Hk.
Qed.

Lemma csv_rows_match_detail_rows (s : DB) (l : list Presensi) :
  forall i,
    Forall2 (fun row r => tl row = [CStr (r_nama r); cell_of_hp (r_hp r);
                                    CStr (r_waktu_presensi r)])
            (csv_rows s i l) (detail_rows s l).
Proof.
  induction l as [|p l IH]; intros i; simpl; [constructor|].
  destruct (lookup_jamaah (p_id_jamaah p) s) as [j|]; simpl.
  - constructor; [reflexivity | apply IH].
  - apply IH.
Qed.

(** X5.  Over the same list of records and the same store, the loop of the
    export and the loop of the report agree: after the header row the first
    builds exactly one data row per row the second builds, in the same
    order, with the same name, phone and time. *)
Theorem export_loop_matches_report_loop :
  forall s l,
    exists report_data csv_data,
      report_loop l [] s = Ret report_data s
      /\ csv_loop 1 l [csv_header] s = Ret (csv_header :: csv_data) s
      /\ List.length csv_data = List.length report_data
      /\ Forall2 (fun row r => tl row = [CStr (r_nama r); cell_of_hp (r_hp r);
                                         CStr (r_waktu_presensi r)])
                 csv_data report_data.
Proof.
  intros s l. exists (detail_rows s l), (csv_rows s 1 l).
  split; [rewrite report_loop_rows; reflexivity|].
  split; [rewrite csv_loop_rows; reflexivity|].
  split; [apply csv_rows_length | apply csv_rows_match_detail_rows].
Qed.

Lemma csv_rows_all_exist (s : DB) (l : list Presensi) :
  (forall p, In p l -> attendee_exists s p = true) ->
  forall i, map row_index (csv_rows s i l) = map Some (seq i (List.length l)).
Proof.
  induction l as [|p l IH]; intros Hall i; simpl; [reflexivity|].
  pose proof (Hall p (or_introl eq_refl)) as Hp. unfold attendee_exists in Hp.
  destruct (lookup_jamaah (p_id_jamaah p) s); [|discriminate].
  simpl. f_equal. apply IH. intros q Hq. apply Hall. now right.
Qed.

(** X6.  When the attendee of every retrieved record is still stored, the
    loop of the export numbers its data rows 1, 2, ..., n, one per record. *)
Theorem export_loop_sequential_when_all_exist :
  forall s l,
    (forall p, In p l -> attendee_exists s p = true) ->
    exists csv_data,
      csv_loop 1 l [csv_header] s = Ret (csv_header :: csv_data) s
      /\ List.length csv_data = List.length l
      /\ map row_index csv_data = map Some (seq 1 (List.length l)).
Proof.
  intros s l Hall. exists (csv_rows s 1 l).
  split; [rewrite csv_loop_rows; reflexivity|].
  split; [|now apply csv_rows_all_exist].
  rewrite csv_rows_length, detail_rows_length.
  clear - Hall. induction l as [|p l IH]; simpl; [reflexivity|].
  rewrite (Hall p (or_introl eq_refl)). simpl. f_equal.
  apply IH. intros q Hq. apply Hall. now right.
Qed.

(** Two records, both of stored attendees. *)
Lemma export_loop_sequential_when_all_exist_witness :
  exists csv_data,
    csv_loop 1 [mkPresensi "p-1" "j-1" "k-1" "t1"; mkPresensi "p-3" "j-2" "k-1" "t2"]
             [csv_header] db_laporan = Ret (csv_header :: csv_data) db_laporan
    /\ List.length csv_data = 2
    /\ map row_index csv_data = [Some 1; Some 2].
Proof.
  apply (export_loop_sequential_when_all_exist db_laporan
           [mkPresensi "p-1" "j-1" "k-1" "t1"; mkPresensi "p-3" "j-2" "k-1" "t2"]).
  intros p [<-|[<-|[]]]; reflexivity.
Defined.

(** X7.  The export never returns a response and never writes: it raises
    404 for an unknown session and [TypeError] for every known one. *)
Theorem export_always_raises :
  forall kajian_id s,
    export_attendance_csv kajian_id s
    = Exc (match lookup_kajian kajian_id s with
           | Some _ => TypeError
           | None => HTTPException 404 "Kajian not found"
           end) s.
Proof.
  intros kajian_id s.
  destruct (lookup_kajian kajian_id s) as [k|] eqn:Hk.
  - now apply export_attendance_csv_raises with (k := k).
  - unfold export_attendance_csv, bind, gets, raise.
    fold (lookup_kajian kajian_id s). now rewrite Hk.
Qed.

(** ** Deleting an attendee *)

Lemma delete_jamaah_store i s :
  store_of (delete_jamaah i s)
  = mkDB (snd (delete_one (by_j_id i) (db_jamaah s))) (db_kajian s) (db_presensi s).
Proof.
  unfold delete_jamaah.
  destruct (delete_one (by_j_id i) (db_jamaah s)) as [n c].
  destruct (Nat.eqb n 0); reflexivity.
Qed.

Lemma lookup_jamaah_after_delete i i' s :
  NoDup (map j_id (db_jamaah s)) ->
  lookup_jamaah i' (store_of (delete_jamaah i s))
  = if String.eqb i' i then None else lookup_jamaah i' s.
Proof.
  intros Hu. rewrite delete_jamaah_store. unfold lookup_jamaah; simpl.
  exact (find_after_delete j_id i i' (db_jamaah s) Hu).
Qed.

Lemma detail_rows_after_delete i s (l : list Presensi) :
  NoDup (map j_id (db_jamaah s)) ->
  detail_rows (store_of (delete_jamaah i s)) l
  = detail_rows s (filter (fun p => negb (String.eqb (p_id_jamaah p) i)) l).
Proof.
  intros Hu. induction l as [|p l IH]; simpl; [reflexivity|].
  rewrite (lookup_jamaah_after_delete i (p_id_jamaah p) s Hu).
  destruct (String.eqb (p_id_jamaah p) i); simpl; [exact IH|].
  now rewrite IH.
Qed.

(** X8.  Deleting an attendee does not cascade: sessions and attendance
    records all stay, and, with attendee ids unique, the loop of the report
    over any list of records from then on builds the rows it built before
    without those of that attendee. *)
Theorem delete_jamaah_drops_report_rows :
  forall i s l report_data,
    NoDup (map j_id (db_jamaah s)) ->
    report_loop l [] s = Ret report_data s ->
    let s' := store_of (delete_jamaah i s) in
    db_presensi s' = db_presensi s
    /\ db_kajian s' = db_kajian s
    /\ exists kept,
         report_loop (filter (fun p => negb (String.eqb (p_id_jamaah p) i)) l) [] s
         = Ret kept s
         /\ report_loop l [] s' = Ret kept s'
         /\ List.length kept <= List.length report_data.
Proof.
  intros i s l report_data Hu Hrun s'.
  assert (Hs : s' = mkDB (snd (delete_one (by_j_id i) (db_jamaah s)))
                         (db_kajian s) (db_presensi s)) by apply delete_jamaah_store.
  split; [now rewrite Hs|]. split; [now rewrite Hs|].
  exists (detail_rows s (filter (fun p => negb (String.eqb (p_id_jamaah p) i)) l)).
  split; [rewrite report_loop_rows; reflexivity|].
  split.
  - rewrite report_loop_rows. unfold s'. now rewrite detail_rows_after_delete.
  - rewrite report_loop_rows in Hrun. injection Hrun as <-. simpl.
    rewrite !detail_rows_length.
    clear. induction l as [|p l IH]; simpl; [apply le_n|].
    destruct (String.eqb (p_id_jamaah p) i); simpl.
    + destruct (attendee_exists s p); simpl; lia.
    + destruct (attendee_exists s p); simpl; lia.
Qed.

(** Siti is deleted; of the three records the loop keeps the row of Budi. *)
Lemma delete_jamaah_drops_report_rows_witness :
  let s' := store_of (delete_jamaah "j-2" db_laporan) in
  db_presensi s' = db_presensi db_laporan
  /\ db_kajian s' = db_kajian db_laporan
  /\ exists kept,
       report_loop (filter (fun p => negb (String.eqb (p_id_jamaah p) "j-2"))
                           (db_presensi db_laporan)) [] db_laporan
       = Ret kept db_laporan
       /\ report_loop (db_presensi db_laporan) [] s' = Ret kept s'
       /\ List.length kept <= 2.
Proof.
  apply (delete_jamaah_drops_report_rows "j-2" db_laporan (db_presensi db_laporan)
           [mkReportRow "Budi" (Some "0812000111") "2024-05-17T02:00:00+00:00";
            mkReportRow "Siti" (Some "0813000222") "2024-05-17T02:10:00+00:00"]).
  - simpl. constructor; [intros [H|[]]; discriminate H|].
    constructor; [intros []|constructor].
  - reflexivity.
Defined.

(** ** The roster, further *)

Lemma find_one_in_some {A} (flt : A -> bool) (c : list A) (x : A) :
  In x c -> flt x = true -> find_one flt c <> None.
Proof.
  intros Hin Hx Hn. unfold find_one in Hn.
  exact (eq_true_false_abs _ Hx (find_none flt c Hn x Hin)).
Qed.

(** X9.  Creating an attendee whose phone (not empty) is the phone of any
    stored attendee fails with status 400 and leaves the store as it is. *)
Theorem create_jamaah_rejects_stored_phone :
  forall env jc s j h,
    In j (db_jamaah s) ->
    j_hp j = Some h ->
    jc_hp jc = Some h ->
    h <> "" ->
    create_jamaah env jc s = Exc (HTTPException 400 "Phone number already exists") s.
Proof.
  intros env jc s j h Hin Hj Hc Hne.
  destruct (find_one (by_hp h) (db_jamaah s)) as [j'|] eqn:Hf.
  - now apply create_jamaah_conflict with (h := h) (j := j').
  - exfalso. apply (find_one_in_some (by_hp h) (db_jamaah s) j Hin); [|exact Hf].
    unfold by_hp. rewrite Hj. apply String.eqb_refl.
Qed.

(** A second attendee with the phone of Budi. *)
Lemma create_jamaah_rejects_stored_phone_witness :
  create_jamaah env_pagi (mkJamaahCreate "Budi Dua" (Some "0812000111")) db_awal
  = Exc (HTTPException 400 "Phone number already exists") db_awal.
Proof.
  apply (create_jamaah_rejects_stored_phone env_pagi
           (mkJamaahCreate "Budi Dua" (Some "0812000111")) db_awal budi "0812000111").
  - simpl. left. reflexivity.
  - reflexivity.
  - reflexivity.
  - discriminate.
Defined.

(** X10.  Creating an attendee with no phone, or with the empty string as
    phone, always succeeds and appends the attendee, whatever the roster
    holds: the empty phone is not checked and may repeat. *)
Theorem create_jamaah_without_phone_succeeds :
  forall env jc s,
    jc_hp jc = None \/ jc_hp jc = Some "" ->
    let j := mkJamaah (uuid4 env) (jc_nama jc) (jc_hp jc) in
    create_jamaah env jc s
    = Ret j (mkDB (db_jamaah s ++ [j])%list (db_kajian s) (db_presensi s)).
Proof.
  intros env jc s [Hh|Hh] j; unfold j, create_jamaah, bind; rewrite Hh; reflexivity.
Qed.

(** A second attendee with the empty phone. *)
Lemma create_jamaah_without_phone_succeeds_witness :
  let s := mkDB [mkJamaah "j-7" "Tanpa Nomor" (Some "")] [] [] in
  let j := mkJamaah "p-1" "Tanpa Nomor Juga" (Some "") in
  create_jamaah env_pagi (mkJamaahCreate "Tanpa Nomor Juga" (Some "")) s
  = Ret j (mkDB (db_jamaah s ++ [j])%list (db_kajian s) (db_presensi s)).
Proof.
  apply (create_jamaah_without_phone_succeeds env_pagi
           (mkJamaahCreate "Tanpa Nomor Juga" (Some ""))
           (mkDB [mkJamaah "j-7" "Tanpa Nomor" (Some "")] [] [])).
  right. reflexivity.
Defined.

(** X11.  Creating and deleting attendees keep the present phones pairwise
    different. *)
Theorem create_and_delete_keep_phone_unique :
  forall env jc i s,
    phone_unique s ->
    phone_unique (store_of (create_jamaah env jc s))
    /\ phone_unique (store_of (delete_jamaah i s)).
Proof.
  intros env jc i s Hu. split.
  - now apply create_jamaah_keeps_phone_unique.
  - now apply delete_jamaah_keeps_phone_unique.
Qed.

Lemma create_and_delete_keep_phone_unique_witness :
  phone_unique (store_of (create_jamaah env_pagi
                            (mkJamaahCreate "Umar" (Some "0814000333")) db_awal))
  /\ phone_unique (store_of (delete_jamaah "j-1" db_awal)).
Proof.
  apply (create_and_delete_keep_phone_unique env_pagi
           (mkJamaahCreate "Umar" (Some "0814000333")) "j-1" db_awal).
  unfold phone_unique. simpl.
  constructor; [intros [H|[]]; discriminate H|].
  constructor; [intros []|constructor].
Defined.

(** X12.  A created attendee is stored under the drawn id with the name and
    phone of the request, and, the id being fresh, a lookup by that id
    finds it. *)
Theorem create_jamaah_then_lookup :
  forall env jc s j s',
    lookup_jamaah (uuid4 env) s = None ->
    create_jamaah env jc s = Ret j s' ->
    j = mkJamaah (uuid4 env) (jc_nama jc) (jc_hp jc)
    /\ s' = mkDB (db_jamaah s ++ [j])%list (db_kajian s) (db_presensi s)
    /\ lookup_jamaah (j_id j) s' = Some j.
Proof.
  intros env jc s j s' Hfresh Hrun.
  assert (H : j = mkJamaah (uuid4 env) (jc_nama jc) (jc_hp jc)
              /\ s' = mkDB (db_jamaah s ++ [j])%list (db_kajian s) (db_presensi s)).
  { revert Hrun. unfold create_jamaah, bind, gets, insert_jamaah, modify, ret, raise,
      insert_one.
    destruct (jc_hp jc) as [h|]; simpl.
    - destruct (negb (String.eqb h "")); simpl.
      + destruct (find_one (by_hp h) (db_jamaah s)); simpl; intros H.
        * discriminate H.
        * injection H as <- <-. split; reflexivity.
      + intros H. injection H as <- <-. split; reflexivity.
    - intros H. injection H as <- <-. split; reflexivity. }
  destruct H as [Hj Hs]. repeat split; try assumption.
  rewrite Hs. unfold lookup_jamaah; simpl.
  apply find_one_app_r.
  - rewrite Hj; simpl. exact Hfresh.
  - unfold by_j_id. apply String.eqb_refl.
Qed.

Lemma create_jamaah_then_lookup_witness :
  let j := mkJamaah "p-1" "Umar" (Some "0814000333") in
  let s' := mkDB (db_jamaah db_awal ++ [j])%list (db_kajian db_awal) (db_presensi db_awal) in
  j = mkJamaah "p-1" "Umar" (Some "0814000333")
  /\ s' = mkDB (db_jamaah db_awal ++ [j])%list (db_kajian db_awal) (db_presensi db_awal)
  /\ lookup_jamaah (j_id j) s' = Some j.
Proof.
  apply (create_jamaah_then_lookup env_pagi
           (mkJamaahCreate "Umar" (Some "0814000333")) db_awal); reflexivity.
Defined.

Lemma find_one_update_one_other {A} (key : A -> string) (set : A -> A)
    (i i' : string) (c : list A) :
  (forall x, key (set x) = key x) ->
  i' <> i ->
  find_one (by_key key i') (update_one (by_key key i) set c)
  = find_one (by_key key i') c.
Proof.
  intros Hk Hne. unfold find_one. induction c as [|x c IH]; simpl; [reflexivity|].
  destruct (by_key key i x) eqn:E; simpl.
  - unfold by_key in *. rewrite Hk. apply String.eqb_eq in E.
    destruct (String.eqb_spec (key x) i'); [congruence | reflexivity].
  - now rewrite IH.
Qed.

Lemma update_jamaah_found i u s j :
  lookup_jamaah i s = Some j ->
  update_jamaah i u s
  = Ret (mkJamaah i (jc_nama u) (jc_hp u))
        (mkDB (update_one (by_j_id i) (set_jamaah u) (db_jamaah s))
              (db_kajian s) (db_presensi s)).
Proof.
  intros Hj.
  assert (Hid : j_id j = i).
  { apply find_one_some_in in Hj. destruct Hj as [_ Hj].
    now apply String.eqb_eq in Hj. }
  unfold update_jamaah, bind, gets, modify, ret.
  fold (lookup_jamaah i s). rewrite Hj. simpl.
  rewrite find_one_update_one by reflexivity.
  unfold lookup_jamaah in Hj. rewrite Hj. simpl.
  unfold set_jamaah. now rewrite Hid.
Qed.

(** X13.  Updating an attendee: an unknown id raises 404 and changes
    nothing; a known id overwrites name and phone of that attendee and
    returns it, a lookup by the id then finds the updated attendee, lookups
    by other ids find what they found before, and the ids of the roster stay
    as they were. *)
Theorem update_jamaah_outcome :
  forall i u s,
    match lookup_jamaah i s with
    | None => update_jamaah i u s = Exc (HTTPException 404 "Jamaah not found") s
    | Some _ =>
        exists s',
          update_jamaah i u s = Ret (mkJamaah i (jc_nama u) (jc_hp u)) s'
          /\ lookup_jamaah i s' = Some (mkJamaah i (jc_nama u) (jc_hp u))
          /\ (forall i', i' <> i -> lookup_jamaah i' s' = lookup_jamaah i' s)
          /\ map j_id (db_jamaah s') = map j_id (db_jamaah s)
          /\ db_kajian s' = db_kajian s
          /\ db_presensi s' = db_presensi s
    end.
Proof.
  intros i u s.
  destruct (lookup_jamaah i s) as [j|] eqn:Hj.
  - assert (Hid : j_id j = i).
    { apply find_one_some_in in Hj. destruct Hj as [_ Hj].
      now apply String.eqb_eq in Hj. }
    assert (Hup : find_one (by_j_id i)
                    (update_one (by_j_id i) (set_jamaah u) (db_jamaah s))
                  = Some (mkJamaah i (jc_nama u) (jc_hp u))).
    { rewrite find_one_update_one by reflexivity.
      unfold lookup_jamaah in Hj. rewrite Hj. simpl.
      unfold set_jamaah. now rewrite Hid. }
    exists (mkDB (update_one (by_j_id i) (set_jamaah u) (db_jamaah s))
                 (db_kajian s) (db_presensi s)).
    split; [|split; [|split; [|split; [|split]]]].
    + unfold update_jamaah, bind, gets, modify, ret.
      fold (lookup_jamaah i s). rewrite Hj. simpl. now rewrite Hup.
    + exact Hup.
    + intros i' Hne. unfold lookup_jamaah; simpl.
      now apply (find_one_update_one_other j_id (set_jamaah u) i i').
    + simpl. now apply map_update_one.
    + reflexivity.
    + reflexivity.
  - unfold update_jamaah, bind, gets, raise.
    fold (lookup_jamaah i s). now rewrite Hj.
Qed.

(** X14.  Deleting an attendee: an unknown id raises 404 and changes
    nothing; a known id removes exactly one attendee and leaves sessions and
    attendance records as they are, and with ids unique a lookup by that id
    then finds nothing. *)
Theorem delete_jamaah_outcome :
  forall i s,
    match lookup_jamaah i s with
    | None => delete_jamaah i s = Exc (HTTPException 404 "Jamaah not found") s
    | Some _ =>
        exists s',
          delete_jamaah i s = Ret "Jamaah deleted successfully" s'
          /\ S (List.length (db_jamaah s')) = List.length (db_jamaah s)
          /\ db_kajian s' = db_kajian s
          /\ db_presensi s' = db_presensi s
          /\ (NoDup (map j_id (db_jamaah s)) -> lookup_jamaah i s' = None)
    end.
Proof.
  intros i s.
  destruct (lookup_jamaah i s) as [j|] eqn:Hj.
  - destruct (delete_one_some _ _ _ Hj) as [H1 H2].
    pose proof (lookup_jamaah_after_delete i i s) as Hl.
    rewrite delete_jamaah_store in Hl. rewrite String.eqb_refl in Hl.
    unfold delete_jamaah.
    destruct (delete_one (by_j_id i) (db_jamaah s)) as [n c]; simpl in *.
    subst n. simpl. eexists. split; [reflexivity|]. simpl. repeat split; assumption.
  - unfold delete_jamaah. unfold lookup_jamaah in Hj.
    rewrite (delete_one_none _ _ Hj). simpl. now destruct s.
Qed.

Lemma flat_map_two_sources {A B} (f : A -> list B) (c : list A) (x y : A) (h : B) :
  In x c -> In y c -> x <> y -> In h (f x) -> In h (f y) -> ~ NoDup (flat_map f c).
Proof.
  induction c as [|a c IH]; simpl; intros Hx Hy Hne Hfx Hfy Hu; [exact Hx|].
  destruct Hx as [->|Hx], Hy as [->|Hy].
  - now apply Hne.
  - apply (NoDup_app_apart _ _ Hu h Hfx). apply in_flat_map. now exists y.
  - apply (NoDup_app_apart _ _ Hu h Hfy). apply in_flat_map. now exists x.
  - apply NoDup_app_remove_l in Hu. now apply IH.
Qed.

Lemma in_update_one_other {A} (flt : A -> bool) (set : A -> A) (c : list A) (x : A) :
  In x c -> flt x = false -> In x (update_one flt set c).
Proof.
  induction c as [|a c IH]; simpl; intros Hin Hx; [exact Hin|].
  destruct (flt a) eqn:E.
  - destruct Hin as [->|Hin]; [congruence | now right].
  - destruct Hin as [->|Hin]; [now left | right; now apply IH].
Qed.

Lemma in_update_one_first {A} (flt : A -> bool) (set : A -> A) (c : list A) (x : A) :
  find_one flt c = Some x -> In (set x) (update_one flt set c).
Proof.
  unfold find_one. induction c as [|a c IH]; simpl; intros H; [discriminate|].
  destruct (flt a).
  - injection H as ->. now left.
  - right. now apply IH.
Qed.

(** X15.  [update_jamaah] checks no phone: giving an attendee the phone
    (not empty) of another stored attendee succeeds, and the roster then
    holds that phone twice. *)
Theorem update_jamaah_can_duplicate_phone :
  forall ia ib a b h n s,
    lookup_jamaah ia s = Some a ->
    lookup_jamaah ib s = Some b ->
    ia <> ib ->
    j_hp a = Some h ->
    h <> "" ->
    let r := update_jamaah ib (mkJamaahCreate n (Some h)) s in
    value_of r = Some (mkJamaah ib n (Some h))
    /\ ~ phone_unique (store_of r).
Proof.
  intros ia ib a b h n s Ha Hb Hne Hh Hh0 r.
  unfold r. rewrite (update_jamaah_found ib (mkJamaahCreate n (Some h)) s b Hb).
  split; [reflexivity|].
  unfold phone_unique, present_phones; simpl.
  destruct (find_one_some_in _ _ _ Ha) as [Hina Hida].
  apply String.eqb_eq in Hida.
  apply (flat_map_two_sources _ _ a (set_jamaah (mkJamaahCreate n (Some h)) b) h).
  - apply in_update_one_other; [exact Hina|].
    unfold by_j_id. apply String.eqb_neq. congruence.
  - now apply in_update_one_first.
  - intros E. apply (f_equal j_id) in E. simpl in E.
    destruct (find_one_some_in _ _ _ Hb) as [_ Hidb]. apply String.eqb_eq in Hidb.
    congruence.
  - rewrite Hh. destruct (String.eqb_spec h ""); [contradiction | now left].
  - simpl. destruct (String.eqb_spec h ""); [contradiction | now left].
Qed.

(** Siti is given the phone of Budi. *)
Lemma update_jamaah_can_duplicate_phone_witness :
  let r := update_jamaah "j-2" (mkJamaahCreate "Siti" (Some "0812000111")) db_awal in
  value_of r = Some (mkJamaah "j-2" "Siti" (Some "0812000111"))
  /\ ~ phone_unique (store_of r).
Proof.
  apply (update_jamaah_can_duplicate_phone "j-1" "j-2" budi siti "0812000111" "Siti"
           db_awal); try reflexivity; discriminate.
Defined.

(** ** Sessions, further *)

Lemma update_kajian_found i u s k :
  lookup_kajian i s = Some k ->
  update_kajian i u s
  = Ret (mkKajian i (kc_judul u) (kc_tanggal u) (kc_jam_mulai u) (kc_jam_selesai u))
        (mkDB (db_jamaah s)
              (update_one (by_k_id i) (set_kajian u) (db_kajian s))
              (db_presensi s)).
Proof.
  intros Hk.
  assert (Hid : k_id k = i).
  { apply find_one_some_in in Hk. destruct Hk as [_ Hk].
    now apply String.eqb_eq in Hk. }
  unfold update_kajian, bind, gets, modify, ret.
  fold (lookup_kajian i s). rewrite Hk. simpl.
  rewrite find_one_update_one by reflexivity.
  unfold lookup_kajian in Hk. rewrite Hk. simpl.
  unfold set_kajian. now rewrite Hid.
Qed.

Lemma delete_kajian_store i s :
  store_of (delete_kajian i s)
  = mkDB (db_jamaah s) (snd (delete_one (by_k_id i) (db_kajian s))) (db_presensi s).
Proof.
  unfold delete_kajian.
  destruct (delete_one (by_k_id i) (db_kajian s)) as [n c].
  destruct (Nat.eqb n 0); reflexivity.
Qed.

Lemma lookup_kajian_after_delete i i' s :
  NoDup (map k_id (db_kajian s)) ->
  lookup_kajian i' (store_of (delete_kajian i s))
  = if String.eqb i' i then None else lookup_kajian i' s.
Proof.
  intros Hu. rewrite delete_kajian_store. unfold lookup_kajian; simpl.
  exact (find_after_delete k_id i i' (db_kajian s) Hu).
Qed.

Lemma get_kajian_public_lookup i s :
  get_kajian_public i s
  = match lookup_kajian i s with
    | Some k => Ret k s
    | None => Exc (HTTPException 404 "Kajian not found") s
    end.
Proof.
  unfold get_kajian_public, bind, gets, ret, raise. fold (lookup_kajian i s).
  destruct (lookup_kajian i s); reflexivity.
Qed.

(** X16.  A session created under a fresh id is stored with the title, date
    string and times of the request, and the public read of that id returns
    it. *)
Theorem create_kajian_then_public_read :
  forall env kc s,
    lookup_kajian (uuid4 env) s = None ->
    let k := mkKajian (uuid4 env) (kc_judul kc) (kc_tanggal kc)
                      (kc_jam_mulai kc) (kc_jam_selesai kc) in
    exists s',
      create_kajian env kc s = Ret k s'
      /\ db_kajian s' = (db_kajian s ++ [k])%list
      /\ get_kajian_public (uuid4 env) s' = Ret k s'.
Proof.
  intros env kc s Hfresh k.
  exists (mkDB (db_jamaah s) (db_kajian s ++ [k])%list (db_presensi s)).
  split; [reflexivity|]. split; [reflexivity|].
  rewrite get_kajian_public_lookup. unfold lookup_kajian; simpl.
  rewrite (find_one_app_r (by_k_id (uuid4 env)) (db_kajian s) k Hfresh).
  - reflexivity.
  - unfold by_k_id, k; simpl. apply String.eqb_refl.
Qed.

Lemma create_kajian_then_public_read_witness :
  let env := mkEnv "k-4" hari_ini 8 "2024-05-17T01:00:00+00:00" in
  let kc := mkKajianCreate "Kajian Dhuha" "2024-05-18" "08:00" "09:00" in
  let k := mkKajian "k-4" "Kajian Dhuha" "2024-05-18" "08:00" "09:00" in
  exists s',
    create_kajian env kc db_awal = Ret k s'
    /\ db_kajian s' = (db_kajian db_awal ++ [k])%list
    /\ get_kajian_public "k-4" s' = Ret k s'.
Proof.
  apply (create_kajian_then_public_read
           (mkEnv "k-4" hari_ini 8 "2024-05-17T01:00:00+00:00")
           (mkKajianCreate "Kajian Dhuha" "2024-05-18" "08:00" "09:00") db_awal).
  reflexivity.
Defined.

(** X17.  Updating a session: an unknown id raises 404 and changes nothing;
    a known id overwrites title, date string and times, whatever they are,
    and returns the session, which the public read of the id then returns;
    sessions of other ids, attendees and attendance records stay as they
    are. *)
Theorem update_kajian_outcome :
  forall i u s,
    match lookup_kajian i s with
    | None => update_kajian i u s = Exc (HTTPException 404 "Kajian not found") s
    | Some _ =>
        let k' := mkKajian i (kc_judul u) (kc_tanggal u) (kc_jam_mulai u)
                           (kc_jam_selesai u) in
        exists s',
          update_kajian i u s = Ret k' s'
          /\ get_kajian_public i s' = Ret k' s'
          /\ (forall i', i' <> i -> lookup_kajian i' s' = lookup_kajian i' s)
          /\ db_jamaah s' = db_jamaah s
          /\ db_presensi s' = db_presensi s
    end.
Proof.
  intros i u s.
  destruct (lookup_kajian i s) as [k|] eqn:Hk.
  - intros k'. eexists. split; [apply (update_kajian_found i u s k Hk)|].
    split; [|split; [|split; reflexivity]].
    + rewrite get_kajian_public_lookup. unfold lookup_kajian; simpl.
      rewrite find_one_update_one by reflexivity.
      unfold lookup_kajian in Hk. rewrite Hk. simpl.
      apply find_one_some_in in Hk. destruct Hk as [_ Hk].
      apply String.eqb_eq in Hk. unfold set_kajian, k'. now rewrite Hk.
    + intros i' Hne. unfold lookup_kajian; simpl.
      now apply (find_one_update_one_other k_id (set_kajian u) i i').
  - unfold update_kajian, bind, gets, raise.
    fold (lookup_kajian i s). now rewrite Hk.
Qed.

(** X18.  With session ids unique, once a session is deleted every handler
    addressed by its id answers that the session is not found: the check-in
    is rejected with [SessionNotFound], and the public read, the report, the
    export, the QR code, an update and a second delete raise 404.  The
    attendance records of the session stay stored. *)
Theorem deleted_kajian_is_not_found :
  forall parse env ij url render u i s,
    NoDup (map k_id (db_kajian s)) ->
    let s' := store_of (delete_kajian i s) in
    let not_found := HTTPException 404 "Kajian not found" in
    create_presensi parse env (mkPresensiCreate ij i) s' = Ret (reject SessionNotFound) s'
    /\ get_kajian_public i s' = Exc not_found s'
    /\ get_attendance_report i s' = Exc not_found s'
    /\ export_attendance_csv i s' = Exc not_found s'
    /\ generate_qr_code url render i s' = Exc not_found s'
    /\ update_kajian i u s' = Exc not_found s'
    /\ delete_kajian i s' = Exc not_found s'
    /\ db_presensi s' = db_presensi s.
Proof.
  intros parse env ij url render u i s Hu s' not_found.
  assert (Hk : lookup_kajian i s' = None).
  { unfold s'. rewrite (lookup_kajian_after_delete i i s Hu).
    now rewrite String.eqb_refl. }
  split; [now apply create_presensi_no_kajian|].
  split; [rewrite get_kajian_public_lookup; now rewrite Hk|].
  split.
  { unfold get_attendance_report, bind, gets, raise.
    fold (lookup_kajian i s'). now rewrite Hk. }
  split.
  { unfold export_attendance_csv, bind, gets, raise.
    fold (lookup_kajian i s'). now rewrite Hk. }
  split.
  { unfold generate_qr_code, bind, gets, raise.
    fold (lookup_kajian i s'). now rewrite Hk. }
  split.
  { unfold update_kajian, bind, gets, raise.
    fold (lookup_kajian i s'). now rewrite Hk. }
  split.
  { unfold delete_kajian. unfold lookup_kajian in Hk.
    rewrite (delete_one_none _ _ Hk). simpl. now destruct s'. }
  unfold s'. now rewrite delete_kajian_store.
Qed.

Lemma deleted_kajian_is_not_found_witness :
  let s' := store_of (delete_kajian "k-1" db_laporan) in
  create_presensi iso_calendar_date env_pagi (mkPresensiCreate "j-1" "k-1") s'
  = Ret (reject SessionNotFound) s'
  /\ get_kajian_public "k-1" s' = Exc (HTTPException 404 "Kajian not found") s'
  /\ get_attendance_report "k-1" s' = Exc (HTTPException 404 "Kajian not found") s'
  /\ db_presensi s' = db_presensi db_laporan.
Proof.
  destruct (deleted_kajian_is_not_found iso_calendar_date env_pagi "j-1" None
              (fun t => t) (mkKajianCreate "" "" "" "") "k-1" db_laporan)
    as [H1 [H2 [H3 [_ [_ [_ [_ H8]]]]]]].
  - simpl. constructor; [intros []|constructor].
  - repeat split; assumption.
Defined.

Lemma string_app_inv_head (a b c : string) : a ++ b = a ++ c -> b = c.
Proof.
  induction a as [|x a IH]; simpl; intros H; [exact H|].
  injection H as H. now apply IH.
Qed.

(** X19.  For a stored session the QR handler renders the text
    [base/presensi/id], the base being [FRONTEND_URL] or, when it is not
    set, [http://localhost:3000], and returns it as [image/png] without
    writing; and for a given base two different ids never get the same
    text. *)
Theorem generate_qr_code_renders_checkin_address :
  forall url render i s k,
    lookup_kajian i s = Some k ->
    generate_qr_code url render i s
    = Ret (mkImageResponse
             (render (match url with
                      | Some base => base
                      | None => "http://localhost:3000"
                      end ++ "/presensi/" ++ i))
             "image/png") s
    /\ forall i', i' <> i -> qr_data url i' <> qr_data url i.
Proof.
  intros url render i s k Hk. split.
  - unfold generate_qr_code, bind, gets, ret.
    fold (lookup_kajian i s). rewrite Hk. reflexivity.
  - intros i' Hne H. apply Hne. unfold qr_data in H.
    apply string_app_inv_head in H. now apply string_app_inv_head in H.
Qed.

Lemma generate_qr_code_renders_checkin_address_witness :
  generate_qr_code None (fun text => text) "k-1" db_awal
  = Ret (mkImageResponse "http://localhost:3000/presensi/k-1" "image/png") db_awal
  /\ forall i', i' <> "k-1" -> qr_data None i' <> qr_data None "k-1".
Proof.
  apply (generate_qr_code_renders_checkin_address None (fun text => text) "k-1"
           db_awal kajian_subuh).
  reflexivity.
Defined.

(** ** Administrators *)

Section AdminProperties.

Variable hashpw : string -> string -> string.
Variable checkpw : string -> string -> bool.
Variable jwt_encode : string -> string.
Variable jwt_decode : string -> option (option string).

Lemma by_username_true u a : by_username u a = true -> a_username a = u.
Proof. unfold by_username. apply String.eqb_eq. Qed.

Lemma find_by_username_not_in (u : string) (c : list Admin) :
  ~ In u (usernames c) -> find_one (by_username u) c = None.
Proof. exact (find_by_key_not_in a_username u c). Qed.

Lemma find_by_username_none (u : string) (c : list Admin) :
  find_one (by_username u) c = None -> ~ In u (usernames c).
Proof.
  unfold find_one, usernames. intros Hn Hin.
  apply in_map_iff in Hin. destruct Hin as [a [Ha Hin]].
  pose proof (find_none _ _ Hn a Hin) as H. unfold by_username in H.
  rewrite Ha, String.eqb_refl in H. discriminate.
Qed.

(** X20.  Seeding is idempotent.  On an empty collection [init_database]
    stores exactly two administrators, in this order: [adminrh] with the
    hash of [cintaquran] and [pesmarh] with the hash of [rhmantab], each
    under the id and with the salt drawn at its turn.  On any other
    collection it changes nothing, so a second run never adds anything. *)
Theorem init_database_idempotent :
  forall draw draw' a c,
    init_database hashpw draw []
    = [mkAdmin (fst (draw 0)) "adminrh" (hashpw "cintaquran" (snd (draw 0)));
       mkAdmin (fst (draw 1)) "pesmarh" (hashpw "rhmantab" (snd (draw 1)))]
    /\ init_database hashpw draw (a :: c) = a :: c
    /\ init_database hashpw draw' (init_database hashpw draw c)
       = init_database hashpw draw c.
Proof.
  intros draw draw' a c.
  assert (Hseed : init_database hashpw draw []
                  = [mkAdmin (fst (draw 0)) "adminrh" (hashpw "cintaquran" (snd (draw 0)));
                     mkAdmin (fst (draw 1)) "pesmarh" (hashpw "rhmantab" (snd (draw 1)))]).
  { unfold init_database; simpl.
    destruct (draw 0) as [i0 s0], (draw 1) as [i1 s1]. reflexivity. }
  split; [exact Hseed|]. split; [reflexivity|].
  destruct c as [|b c]; [|reflexivity].
  now rewrite Hseed.
Qed.

Lemma login_found al c a :
  find_one (by_username (al_username al)) c = Some a ->
  login checkpw jwt_encode al c
  = if checkpw (al_password al) (a_password_hash a)
    then inr (mkLoginResponse (jwt_encode (al_username al)) "bearer"
                              (mkAdminResponse (a_id a) (al_username al)))
    else inl (HTTPException 401 "Invalid credentials").
Proof.
  intros Hf. unfold login, verify_password, create_access_token, admin_response.
  rewrite Hf. destruct (find_one_some_in _ _ _ Hf) as [_ Hu].
  apply by_username_true in Hu. rewrite Hu.
  destruct (checkpw (al_password al) (a_password_hash a)); reflexivity.
Qed.

(** X21.  After seeding an empty collection, each default administrator
    logs in with the default password and receives the token of the
    username, provided the password check accepts the hash made from the
    same password. *)
Theorem seeded_admins_can_login :
  forall draw,
    (forall password salt, checkpw password (hashpw password salt) = true) ->
    let c := init_database hashpw draw [] in
    login checkpw jwt_encode (mkAdminLogin "adminrh" "cintaquran") c
    = inr (mkLoginResponse (jwt_encode "adminrh") "bearer"
                           (mkAdminResponse (fst (draw 0)) "adminrh"))
    /\ login checkpw jwt_encode (mkAdminLogin "pesmarh" "rhmantab") c
       = inr (mkLoginResponse (jwt_encode "pesmarh") "bearer"
                              (mkAdminResponse (fst (draw 1)) "pesmarh")).
Proof.
  intros draw Hpw c.
  assert (Hc : c = [mkAdmin (fst (draw 0)) "adminrh" (hashpw "cintaquran" (snd (draw 0)));
                    mkAdmin (fst (draw 1)) "pesmarh" (hashpw "rhmantab" (snd (draw 1)))]).
  { unfold c, init_database; simpl.
    destruct (draw 0) as [i0 s0], (draw 1) as [i1 s1]. reflexivity. }
  rewrite Hc. split.
  - rewrite (login_found (mkAdminLogin "adminrh" "cintaquran") _
               (mkAdmin (fst (draw 0)) "adminrh" (hashpw "cintaquran" (snd (draw 0)))))
      by reflexivity.
    simpl. now rewrite Hpw.
  - rewrite (login_found (mkAdminLogin "pesmarh" "rhmantab") _
               (mkAdmin (fst (draw 1)) "pesmarh" (hashpw "rhmantab" (snd (draw 1)))))
      by reflexivity.
    simpl. now rewrite Hpw.
Qed.

(** X22.  A login returns exactly when an administrator of that username
    is stored and the password checks against the hash of the first such
    administrator; it then returns the token of the username, as [bearer],
    with the id and username of that administrator.  Every other login
    raises HTTP 401 [Invalid credentials]. *)
Theorem login_succeeds_iff :
  forall al c,
    let accepted a :=
      find_one (by_username (al_username al)) c = Some a
      /\ checkpw (al_password al) (a_password_hash a) = true in
    (forall r,
        login checkpw jwt_encode al c = inr r
        <-> exists a, accepted a
                      /\ r = mkLoginResponse (jwt_encode (al_username al)) "bearer"
                                             (mkAdminResponse (a_id a) (al_username al)))
    /\ (login checkpw jwt_encode al c = inl (HTTPException 401 "Invalid credentials")
        <-> ~ exists a, accepted a).
Proof.
  intros al c accepted. unfold accepted. split.
  - intros r. split.
    + intros Hr.
      destruct (find_one (by_username (al_username al)) c) as [a|] eqn:Hf.
      * rewrite (login_found al c a Hf) in Hr. exists a.
        destruct (checkpw (al_password al) (a_password_hash a)); [|discriminate].
        injection Hr as <-. repeat split.
      * unfold login in Hr. rewrite Hf in Hr. discriminate.
    + intros [a [[Hf Hpw] ->]]. now rewrite (login_found al c a Hf), Hpw.
  - destruct (find_one (by_username (al_username al)) c) as [a|] eqn:Hf.
    + rewrite (login_found al c a Hf).
      destruct (checkpw (al_password al) (a_password_hash a)) eqn:Hpw.
      * split; [discriminate|]. intros Hn. exfalso. apply Hn. now exists a.
      * split; [|reflexivity]. intros _ [a' [Ha' Hpw']].
        injection Ha' as <-. congruence.
    + unfold login. rewrite Hf. split; [|reflexivity].
      intros _ [a' [Ha' _]]. discriminate.
Qed.

(** X23.  Creating an administrator whose username is stored already fails
    with status 400 and changes nothing. *)
Theorem create_admin_rejects_stored_username :
  forall id salt ac c,
    In (ac_username ac) (usernames c) ->
    create_admin hashpw id salt ac c
    = (inl (HTTPException 400 "Username already exists"), c).
Proof.
  intros id salt ac c Hin. unfold create_admin.
  destruct (find_one (by_username (ac_username ac)) c) eqn:Hf; [reflexivity|].
  exfalso. exact (find_by_username_none _ _ Hf Hin).
Qed.

(** X24.  [create_admin] keeps usernames pairwise different. *)
Theorem create_admin_keeps_usernames_unique :
  forall id salt ac c,
    NoDup (usernames c) ->
    NoDup (usernames (snd (create_admin hashpw id salt ac c))).
Proof.
  intros id salt ac c Hu. unfold create_admin.
  destruct (find_one (by_username (ac_username ac)) c) eqn:Hf; simpl; [exact Hu|].
  unfold usernames, insert_one. rewrite map_app; simpl.
  apply NoDup_app; [exact Hu | constructor; [intros []|constructor] |].
  intros u Hin [<-|[]]. exact (find_by_username_none _ _ Hf Hin).
Qed.

Lemma map_as_flat_map {A B} (f : A -> B) (l : list A) :
  map f l = flat_map (fun x => [f x]) l.
Proof. induction l as [|x l IH]; simpl; [reflexivity | now rewrite IH]. Qed.

Lemma update_admin_found salt i u c a :
  find_one (by_a_id i) c = Some a ->
  update_admin hashpw salt i u c
  = (inr (mkAdminResponse i (ac_username u)),
     update_one (by_a_id i) (set_admin hashpw salt u) c).
Proof.
  intros Hf. unfold update_admin. rewrite Hf.
  rewrite find_one_update_one by reflexivity. rewrite Hf. simpl.
  destruct (find_one_some_in _ _ _ Hf) as [_ Hid]. apply String.eqb_eq in Hid.
  unfold admin_response; simpl. now rewrite Hid.
Qed.

(** X25.  [update_admin] checks no username: giving an administrator the
    username of another stored administrator succeeds, and the collection
    then holds that username twice. *)
Theorem update_admin_can_duplicate_username :
  forall salt ia ib a b pw c,
    find_one (by_a_id ia) c = Some a ->
    find_one (by_a_id ib) c = Some b ->
    ia <> ib ->
    let r := update_admin hashpw salt ib (mkAdminCreate (a_username a) pw) c in
    fst r = inr (mkAdminResponse ib (a_username a))
    /\ ~ NoDup (usernames (snd r)).
Proof.
  intros salt ia ib a b pw c Ha Hb Hne r.
  unfold r. rewrite (update_admin_found salt ib _ c b Hb). simpl.
  split; [reflexivity|].
  destruct (find_one_some_in _ _ _ Ha) as [Hina Hida]. apply String.eqb_eq in Hida.
  destruct (find_one_some_in _ _ _ Hb) as [_ Hidb]. apply String.eqb_eq in Hidb.
  unfold usernames. rewrite map_as_flat_map.
  apply (flat_map_two_sources _ _ a
           (set_admin hashpw salt (mkAdminCreate (a_username a) pw) b) (a_username a)).
  - apply in_update_one_other; [exact Hina|].
    unfold by_a_id. apply String.eqb_neq. congruence.
  - now apply in_update_one_first.
  - intros E. apply (f_equal a_id) in E. simpl in E. congruence.
  - now left.
  - now left.
Qed.

End AdminProperties.

Lemma find_by_key_in_nodup {A} (key : A -> string) (c : list A) (a : A) :
  NoDup (map key c) -> In a c -> find_one (by_key key (key a)) c = Some a.
Proof.
  unfold find_one. induction c as [|x c IH]; simpl; intros Hu Hin; [contradiction|].
  inversion Hu as [|? ? Hnin Hu']; subst.
  unfold by_key at 1. destruct Hin as [->|Hin].
  - now rewrite String.eqb_refl.
  - destruct (String.eqb_spec (key x) (key a)) as [E|_]; [|now apply IH].
    exfalso. apply Hnin. rewrite E. now apply in_map.
Qed.

Lemma delete_one_split {A} (flt : A -> bool) (c : list A) (a : A) :
  find_one flt c = Some a ->
  exists l1 l2, c = (l1 ++ a :: l2)%list /\ snd (delete_one flt c) = (l1 ++ l2)%list.
Proof.
  unfold find_one. induction c as [|x c IH]; simpl; intros H; [discriminate|].
  destruct (flt x).
  - injection H as ->. now exists [], c.
  - destruct (IH H) as [l1 [l2 [Hc Hd]]].
    destruct (delete_one flt c) as [n c']; simpl in *.
    exists (x :: l1), l2. split; simpl; congruence.
Qed.

Section AdminTokens.

Variable checkpw : string -> string -> bool.
Variable jwt_encode : string -> string.
Variable jwt_decode : string -> option (option string).

Lemma login_inr al c r :
  login checkpw jwt_encode al c = inr r ->
  exists a, find_one (by_username (al_username al)) c = Some a
            /\ r = mkLoginResponse (jwt_encode (al_username al)) "bearer"
                                   (mkAdminResponse (a_id a) (al_username al)).
Proof.
  intros Hr.
  destruct (find_one (by_username (al_username al)) c) as [a|] eqn:Hf.
  - rewrite (login_found checkpw jwt_encode al c a Hf) in Hr.
    destruct (checkpw (al_password al) (a_password_hash a)); [|discriminate].
    injection Hr as <-. now exists a.
  - unfold login in Hr. rewrite Hf in Hr. discriminate.
Qed.

(** X26.  The token a login returns passes the authentication of the
    administrator routes, as the administrator who logged in, provided
    decoding an encoded username gives that username back. *)
Theorem login_token_authenticates :
  forall al c r,
    (forall u, jwt_decode (jwt_encode u) = Some (Some u)) ->
    login checkpw jwt_encode al c = inr r ->
    authenticate jwt_decode (access_token r) c = inr (login_admin r).
Proof.
  intros al c r Hjwt Hr.
  destruct (login_inr al c r Hr) as [a [Hf ->]]. simpl.
  unfold authenticate, verify_token. rewrite Hjwt.
  unfold get_current_admin. rewrite Hf. unfold admin_response.
  destruct (find_one_some_in _ _ _ Hf) as [_ Hu]. apply by_username_true in Hu.
  now rewrite Hu.
Qed.

(** X27.  With ids and usernames unique, the token of an administrator
    stops passing once that administrator is deleted: the authentication
    raises 401. *)
Theorem deleted_admin_token_refused :
  forall al c r,
    (forall u, jwt_decode (jwt_encode u) = Some (Some u)) ->
    NoDup (map a_id c) ->
    NoDup (usernames c) ->
    login checkpw jwt_encode al c = inr r ->
    authenticate jwt_decode (access_token r)
                 (snd (delete_admin (ar_id (login_admin r)) c))
    = inl (HTTPException 401 "Admin not found").
Proof.
  intros al c r Hjwt Hid Hun Hr.
  destruct (login_inr al c r Hr) as [a [Hf ->]]. simpl.
  destruct (find_one_some_in _ _ _ Hf) as [Hin Hu]. apply by_username_true in Hu.
  pose proof (find_by_key_in_nodup a_id c a Hid Hin) as Hfa.
  destruct (delete_one_split _ _ _ Hfa) as [l1 [l2 [Hc Hd]]].
  assert (Hs : snd (delete_admin (a_id a) c) = (l1 ++ l2)%list).
  { unfold delete_admin. change (by_a_id (a_id a)) with (by_key a_id (a_id a)).
    destruct (delete_one (by_key a_id (a_id a)) c) as [n c']; simpl in *.
    now destruct (Nat.eqb n 0). }
  rewrite Hs. unfold authenticate, verify_token. rewrite Hjwt.
  unfold get_current_admin.
  rewrite find_by_username_not_in; [reflexivity|].
  rewrite Hc in Hun. unfold usernames in *. rewrite map_app in *. simpl in Hun.
  apply NoDup_remove_2 in Hun. now rewrite Hu in Hun.
Qed.

End AdminTokens.

(** ** Runs of the administrator handlers *)

Lemma seeded_admins_can_login_witness :
  let c := init_database plain_hashpw undian [] in
  login plain_checkpw plain_jwt_encode (mkAdminLogin "adminrh" "cintaquran") c
  = inr (mkLoginResponse "adminrh" "bearer" (mkAdminResponse "a-0" "adminrh"))
  /\ login plain_checkpw plain_jwt_encode (mkAdminLogin "pesmarh" "rhmantab") c
     = inr (mkLoginResponse "pesmarh" "bearer" (mkAdminResponse "a-1" "pesmarh")).
Proof.
  apply (seeded_admins_can_login plain_hashpw plain_checkpw plain_jwt_encode undian).
  intros password salt. unfold plain_checkpw, plain_hashpw. apply String.eqb_refl.
Defined.

Lemma create_admin_rejects_stored_username_witness :
  create_admin plain_hashpw "a-3" "garam" (mkAdminCreate "pesmarh" "lain")
               [admin_satu; admin_dua]
  = (inl (HTTPException 400 "Username already exists"), [admin_satu; admin_dua]).
Proof.
  apply (create_admin_rejects_stored_username plain_hashpw "a-3" "garam"
           (mkAdminCreate "pesmarh" "lain") [admin_satu; admin_dua]).
  simpl. right. left. reflexivity.
Defined.

Lemma create_admin_keeps_usernames_unique_witness :
  NoDup (usernames (snd (create_admin plain_hashpw "a-3" "garam"
                           (mkAdminCreate "adminbaru" "sandi")
                           [admin_satu; admin_dua]))).
Proof.
  apply (create_admin_keeps_usernames_unique plain_hashpw "a-3" "garam"
           (mkAdminCreate "adminbaru" "sandi") [admin_satu; admin_dua]).
  simpl. constructor; [intros [H|[]]; discriminate H|].
  constructor; [intros []|constructor].
Defined.

Lemma update_admin_can_duplicate_username_witness :
  let r := update_admin plain_hashpw "garam" "a-2" (mkAdminCreate "adminrh" "sandi")
                        [admin_satu; admin_dua] in
  fst r = inr (mkAdminResponse "a-2" "adminrh")
  /\ ~ NoDup (usernames (snd r)).
Proof.
  apply (update_admin_can_duplicate_username plain_hashpw "garam" "a-1" "a-2"
           admin_satu admin_dua "sandi" [admin_satu; admin_dua]);
    try reflexivity; discriminate.
Defined.

Lemma login_token_authenticates_witness :
  authenticate plain_jwt_decode "adminrh" [admin_satu; admin_dua]
  = inr (mkAdminResponse "a-1" "adminrh").
Proof.
  apply (login_token_authenticates plain_checkpw plain_jwt_encode plain_jwt_decode
           (mkAdminLogin "adminrh" "cintaquran") [admin_satu; admin_dua]
           (mkLoginResponse "adminrh" "bearer" (mkAdminResponse "a-1" "adminrh"))).
  - intros u. reflexivity.
  - reflexivity.
Defined.

Lemma deleted_admin_token_refused_witness :
  authenticate plain_jwt_decode "adminrh" (snd (delete_admin "a-1" [admin_satu; admin_dua]))
  = inl (HTTPException 401 "Admin not found").
Proof.
  apply (deleted_admin_token_refused plain_checkpw plain_jwt_encode plain_jwt_decode
           (mkAdminLogin "adminrh" "cintaquran") [admin_satu; admin_dua]
           (mkLoginResponse "adminrh" "bearer" (mkAdminResponse "a-1" "adminrh"))).
  - intros u. reflexivity.
  - simpl. constructor; [intros [H|[]]; discriminate H|].
    constructor; [intros []|constructor].
  - simpl. constructor; [intros [H|[]]; discriminate H|].
    constructor; [intros []|constructor].
  - reflexivity.
Defined.
